(** * UpLyft back end: the CSV importer and the token-verification handler

    A shallow embedding of [Server/import_products.py] and of the
    [otpless_verify] handler of [Server/app.py], with the properties of the
    specification stated over it.

    The importer is a Python script driving two libraries, pandas and
    sqlite3.  Its control flow (the [try] body, the per-row loop with its four
    skip branches, the three [except] clauses and the [finally]) is embedded
    as written, in a small state-and-exception monad.  The library calls are
    modelled in [Module Py] (the built-ins [str.strip] and [float]) and in
    [Module Sqlite] (one connection on one database, with its transaction). *)

From Stdlib Require Import ZArith QArith Qabs List String Ascii Bool Arith Lia.
Import ListNotations.

Local Open Scope string_scope.
Local Open Scope list_scope.

(* ================================================================== *)
(** ** Python built-ins used by the importer *)
(* ================================================================== *)

Module Py.

(** The CSV is decoded as latin-1, so a character of the text is one byte and
    a Python [str] is a Rocq [string]. *)

Definition code (c : ascii) : nat := nat_of_ascii c.

Definition between (lo hi : nat) (c : ascii) : bool :=
  (lo <=? code c)%nat && (code c <=? hi)%nat.

(** [str.isspace] on the latin-1 range: TAB..CR, FS..US, space, NEL, NBSP. *)
Definition isspace (c : ascii) : bool :=
  between 9 13 c || between 28 31 c || between 32 32 c
  || between 133 133 c || between 160 160 c.

(** [Py_ISSPACE] of the C runtime, used by [float]: TAB..CR and space. *)
Definition c_isspace (c : ascii) : bool := between 9 13 c || between 32 32 c.

Definition isdigit (c : ascii) : bool := between 48 57 c.

Definition tolower (c : ascii) : ascii :=
  if between 65 90 c then ascii_of_nat (code c + 32) else c.

Fixpoint lstrip (s : string) : string :=
  match s with
  | EmptyString => EmptyString
  | String c s' => if isspace c then lstrip s' else s
  end.

Fixpoint rstrip (s : string) : string :=
  match s with
  | EmptyString => EmptyString
  | String c s' =>
      match rstrip s' with
      | EmptyString => if isspace c then EmptyString else String c EmptyString
      | r => String c r
      end
  end.

(** [s.strip()] *)
Definition strip (s : string) : string := rstrip (lstrip s).

(** *** Floats

    A Python float is a binary64.  A finite one is kept as the exact rational
    the text denotes (in lowest terms); rounding inside the finite range and
    the sign of zero are not modelled.  Overflow to infinity and underflow to
    zero are. *)

Inductive pyfloat :=
| Finite (q : Q)
| Inf (negative : bool)
| NaN.

Definition is_nan (x : pyfloat) : bool :=
  match x with NaN => true | _ => false end.

Definition is_finite (x : pyfloat) : bool :=
  match x with Finite _ => true | _ => false end.

(** [x >= 0] for floats; false on NaN. *)
Definition nonneg (x : pyfloat) : bool :=
  match x with
  | Finite q => (0 <=? Qnum q)%Z
  | Inf negative => negb negative
  | NaN => false
  end.

(** Half-way between the largest binary64 and 2^1024: from here on a decimal
    rounds to infinity. *)
Definition huge : Q := inject_Z (2 ^ 1024 - 2 ^ 970).

(** Half of the smallest subnormal: up to here a decimal rounds to zero. *)
Definition tiny : Q := Qmake 1 (2 ^ 1075).

Definition round_double (q : Q) : pyfloat :=
  if Qle_bool huge (Qabs q) then Inf (Qnum q <? 0)%Z
  else if Qle_bool (Qabs q) tiny then Finite 0
  else Finite (Qred q).

(** [m * 10^e] *)
Definition decimal (m e : Z) : Q :=
  if (0 <=? e)%Z then inject_Z (m * 10 ^ e)
  else Qmake m (Z.to_pos (10 ^ (- e))).

(** *** [float(str)]: [PyFloat_FromString] *)

(** Non-ASCII white space becomes a space, any other non-ASCII character
    becomes [?] (latin-1 has no decimal digit above 127). *)
Definition to_ascii_space (c : ascii) : ascii :=
  if (code c <? 128)%nat then c
  else if isspace c then " "%char else "?"%char.

Definition is_underscore (c : ascii) : bool := (code c =? 95)%nat.

(** Underscores are dropped; one is legal only between two digits. *)
Fixpoint strip_underscores (prev : ascii) (s : list ascii) : option (list ascii) :=
  match s with
  | [] => if is_underscore prev then None else Some []
  | c :: s' =>
      if is_underscore c then
        if isdigit prev then strip_underscores c s' else None
      else if is_underscore prev && negb (isdigit c) then None
      else option_map (cons c) (strip_underscores c s')
  end.

Fixpoint drop_while (p : ascii -> bool) (s : list ascii) : list ascii :=
  match s with
  | [] => []
  | c :: s' => if p c then drop_while p s' else s
  end.

Fixpoint span_digits (s : list ascii) : list ascii * list ascii :=
  match s with
  | [] => ([], [])
  | c :: s' =>
      if isdigit c then let (d, r) := span_digits s' in (c :: d, r)
      else ([], s)
  end.

Definition digits_value (ds : list ascii) : Z :=
  fold_left (fun acc c => (10 * acc + Z.of_nat (code c - 48))%Z) ds 0%Z.

Definition take_sign (s : list ascii) : bool * list ascii :=
  match s with
  | c :: r =>
      if (code c =? 45)%nat then (true, r)
      else if (code c =? 43)%nat then (false, r)
      else (false, s)
  | [] => (false, [])
  end.

(** Digits, an optional point, digits; at least one digit in all.  Returns
    the digits read as one integer, the number of them after the point, and
    the rest of the text. *)
Definition parse_mantissa (s : list ascii) : option (Z * Z * list ascii) :=
  let (ip, r1) := span_digits s in
  let (fp, r2) :=
    match r1 with
    | c :: r => if (code c =? 46)%nat then span_digits r else ([], r1)
    | [] => ([], r1)
    end in
  match ip ++ fp with
  | [] => None
  | ds => Some (digits_value ds, Z.of_nat (List.length fp), r2)
  end.

(** [e] or [E], an optional sign, digits.  Without a digit the exponent is
    not read at all and the text is handed back from the [e]. *)
Definition parse_exponent (s : list ascii) : Z * list ascii :=
  match s with
  | c :: r =>
      if (code (tolower c) =? 101)%nat then
        let (neg, r1) := take_sign r in
        let (ds, r2) := span_digits r1 in
        match ds with
        | [] => (0%Z, s)
        | _ => ((if neg then - digits_value ds else digits_value ds)%Z, r2)
        end
      else (0%Z, s)
  | [] => (0%Z, [])
  end.

(** [_Py_parse_inf_or_nan], which must use up the text. *)
Definition parse_inf_or_nan (s : list ascii) : option pyfloat :=
  let (neg, r) := take_sign s in
  let w := string_of_list_ascii (map tolower r) in
  if (w =? "inf") || (w =? "infinity") then Some (Inf neg)
  else if w =? "nan" then Some NaN
  else None.

(** [float(s)] for a [str]; [None] is [ValueError]. *)
Definition float_of_str (s : string) : option pyfloat :=
  let cs := map to_ascii_space (list_ascii_of_string s) in
  match strip_underscores zero cs with
  | None => None
  | Some cs1 =>
      let body := rev (drop_while c_isspace (rev (drop_while c_isspace cs1))) in
      let (neg, r) := take_sign body in
      match parse_mantissa r with
      | Some (m, fraclen, r1) =>
          let (e, r2) := parse_exponent r1 in
          match r2 with
          | [] => Some (round_double
                          (decimal (if neg then - m else m) (e - fraclen)))
          | _ => None
          end
      | None => parse_inf_or_nan body
      end
  end.

End Py.

(* ================================================================== *)
(** ** pandas: the cells of a data frame and [read_csv] *)
(* ================================================================== *)

Module Pandas.
Import Py.

(** What [row.get(...)] can hand to the loop.  A number carries the text
    [str()] prints for it, since that rendering depends on the binary64
    rounding which is not modelled. *)
Inductive pyobj :=
| PyNone                                  (* the default of [Series.get] *)
| PyStr (s : string)                      (* a cell of an object column *)
| PyFloat (x : pyfloat) (repr : string)   (* a cell of a numeric column *)
| PyOther (repr : string).                (* anything [float()] refuses *)

(** [pd.isna]: [None] and the float nan, which is how an empty cell reads. *)
Definition isna (o : pyobj) : bool :=
  match o with
  | PyNone => true
  | PyFloat x _ => is_nan x
  | PyStr _ | PyOther _ => false
  end.

(** [str(o)] *)
Definition str (o : pyobj) : string :=
  match o with
  | PyNone => "None"
  | PyStr s => s
  | PyFloat _ repr => repr
  | PyOther repr => repr
  end.

Inductive conversion :=
| Converted (x : pyfloat)
| ValueError
| TypeError.

(** [float(o)] *)
Definition float (o : pyobj) : conversion :=
  match o with
  | PyStr s =>
      match float_of_str s with
      | Some x => Converted x
      | None => ValueError
      end
  | PyFloat x _ => Converted x
  | PyNone | PyOther _ => TypeError
  end.

(** A row of the frame: its cells under their column names. *)
Definition Series := list (string * pyobj).

(** [row.get(key)]: [None] when the column is not there. *)
Fixpoint get (key : string) (row : Series) : pyobj :=
  match row with
  | [] => PyNone
  | (k, v) :: rest => if (k =? key)%string then v else get key rest
  end.

Record DataFrame := {
  columns : list string;
  data : list (list pyobj)          (* one list of cells per row, in column order *)
}.

Definition len (df : DataFrame) : nat := List.length (data df).

(** [df.iterrows()]: the rows with their index labels 0, 1, ... *)
Definition iterrows (df : DataFrame) : list (nat * Series) :=
  combine (seq 0 (len df)) (map (combine (columns df)) (data df)).

(** The file at [CSV_FILE], as [pd.read_csv] finds it.  A file that has a
    header line and no line after it is [Parsed] with no rows. *)
Inductive csv_file :=
| NoSuchFile                   (* [FileNotFoundError] *)
| NothingToParse               (* no header, no columns: [EmptyDataError] *)
| Unreadable                   (* any other failure of the reader *)
| Parsed (df : DataFrame).

End Pandas.

(* ================================================================== *)
(** ** sqlite3: the [products] table *)
(* ================================================================== *)

Module Sqlite.
Import Py.

(** A row of [products], after the schema of the [CREATE TABLE] statement. *)
Record ProductRecord := {
  id : Z;                          (* INTEGER PRIMARY KEY AUTOINCREMENT *)
  product_name : string;           (* TEXT NOT NULL *)
  description : option string;     (* TEXT *)
  price : pyfloat;                 (* REAL NOT NULL *)
  category : option string;        (* TEXT *)
  image_url : option string        (* TEXT *)
}.

Record table := {
  rows : list ProductRecord;
  last_id : Z                      (* the largest id handed out so far *)
}.

Definition empty_table : table := {| rows := []; last_id := 0 |}.

(** A database file; [None] while it has no [products] table. *)
Definition database := option table.

(** How a Python float is bound to a statement: sqlite stores a NaN as NULL. *)
Definition bind_float (x : pyfloat) : option pyfloat :=
  if is_nan x then None else Some x.

(** [INSERT INTO products (product_name, description, price, category,
    image_url) VALUES (?, ?, ?, ?, ?)]; [None] is the [IntegrityError] of a
    NULL in a NOT NULL column. *)
Definition insert (name : option string) (descr : option string)
    (cost : option pyfloat) (cat url : option string) (t : table) : option table :=
  match name, cost with
  | Some n, Some p =>
      let i := (last_id t + 1)%Z in
      Some {| rows := rows t ++ [ {| id := i; product_name := n;
                                     description := descr; price := p;
                                     category := cat; image_url := url |} ];
              last_id := i |}
  | _, _ => None
  end.

End Sqlite.

Import Py Pandas Sqlite.

(* ================================================================== *)
(** ** [Server/import_products.py] *)
(* ================================================================== *)

Module Importer.

Inductive exn :=
| FileNotFoundError
| EmptyDataError
| ParserError            (* what else [pd.read_csv] can raise *)
| OperationalError       (* sqlite3: the engine could not do what was asked *)
| IntegrityError.        (* sqlite3: a constraint of the schema was violated *)

(** What the script prints, one constructor for each message. *)
Inductive message :=
| ReadRows (n : nat)
| ColumnsDetected (cols : list string)
| TableEnsured
| SkipDescription (index : nat)
| SkipPriceMissing (index : nat)
| SkipPriceInvalid (index : nat) (text : string)
| SkipPriceType (index : nat)
| ImportCompleted
| Imported (n : nat)
| Skipped (n : nat)
| FileNotFound
| FileEmpty
| Unexpected (e : exn)
| RolledBack.

(** What surrounds a run: the file at [CSV_FILE], and for each call into
    sqlite3 (numbered as they are made) whether the engine fails on it. *)
Record environment := {
  csv : csv_file;
  fault : nat -> bool
}.

Record world := {
  disk : database;             (* [products.db], what is committed *)
  conn : option database;      (* the open connection and what it sees *)
  calls : nat;                 (* sqlite3 calls made so far *)
  stdout : list message
}.

Definition set_conn (c : option database) (w : world) : world :=
  {| disk := disk w; conn := c; calls := calls w; stdout := stdout w |}.

Definition set_disk (d : database) (w : world) : world :=
  {| disk := d; conn := conn w; calls := calls w; stdout := stdout w |}.

Definition tick (w : world) : world :=
  {| disk := disk w; conn := conn w; calls := S (calls w); stdout := stdout w |}.

Definition emit (m : message) (w : world) : world :=
  {| disk := disk w; conn := conn w; calls := calls w;
     stdout := stdout w ++ [m] |}.

(** *** The monad of the [try] body *)

Inductive result (A : Type) :=
| Return (a : A)
| Raise (e : exn).
Arguments Return {A} a.
Arguments Raise {A} e.

Definition M (A : Type) : Type := world -> result A * world.

Definition ret {A} (a : A) : M A := fun w => (Return a, w).

Definition raise {A} (e : exn) : M A := fun w => (Raise e, w).

Definition bind {A B} (m : M A) (f : A -> M B) : M B :=
  fun w =>
    match m w with
    | (Return a, w') => f a w'
    | (Raise e, w') => (Raise e, w')
    end.

Notation "x <- m ;; k" := (bind m (fun x => k))
  (at level 61, m at next level, right associativity).
Notation "m ;; k" := (bind m (fun _ => k))
  (at level 61, right associativity).

Definition print (m : message) : M unit := fun w => (Return tt, emit m w).

(** The body of a [for] loop threading the local variables [acc]. *)
Fixpoint for_each {A B} (body : A -> B -> M A) (acc : A) (l : list B) : M A :=
  match l with
  | [] => ret acc
  | x :: l' => acc' <- body acc x ;; for_each body acc' l'
  end.

(** *** The calls into pandas and sqlite3 *)

Definition read_csv (E : environment) : M DataFrame :=
  match csv E with
  | NoSuchFile => raise FileNotFoundError
  | NothingToParse => raise EmptyDataError
  | Unreadable => raise ParserError
  | Parsed df => ret df
  end.

(** Every call into sqlite3 may fail for a reason of the engine's. *)
Definition sqlite_call (E : environment) : M unit :=
  fun w =>
    if fault E (calls w) then (Raise OperationalError, tick w)
    else (Return tt, tick w).

(** [conn = sqlite3.connect(DATABASE_NAME)] *)
Definition connect (E : environment) : M unit :=
  sqlite_call E ;; fun w => (Return tt, set_conn (Some (disk w)) w).

(** [CREATE TABLE IF NOT EXISTS products (...)].  No transaction is open
    yet, so the new table is on disk at once. *)
Definition create_table (E : environment) : M unit :=
  sqlite_call E ;;
  fun w =>
    match conn w with
    | None => (Raise OperationalError, w)
    | Some (Some _) => (Return tt, w)
    | Some None =>
        (Return tt, set_conn (Some (Some empty_table))
                      (set_disk (Some empty_table) w))
    end.

(** [cursor.execute('INSERT ...', (name, descr, cost, cat, url))], inside
    the transaction the first insert opens. *)
Definition execute_insert (E : environment) (name : string)
    (descr : option string) (cost : pyfloat) (cat url : option string) : M unit :=
  sqlite_call E ;;
  fun w =>
    match conn w with
    | Some (Some t) =>
        match insert (Some name) descr (bind_float cost) cat url t with
        | Some t' => (Return tt, set_conn (Some (Some t')) w)
        | None => (Raise IntegrityError, w)
        end
    | _ => (Raise OperationalError, w)
    end.

(** [conn.commit()] *)
Definition commit (E : environment) : M unit :=
  sqlite_call E ;;
  fun w =>
    match conn w with
    | Some d => (Return tt, set_disk d w)
    | None => (Raise OperationalError, w)
    end.

(** [conn.rollback()] *)
Definition rollback (w : world) : world := set_conn (Some (disk w)) w.

(** [conn.close()]: what was not committed is gone with the connection. *)
Definition close (w : world) : world := set_conn None w.

(** *** The script *)

(** One turn of [for index, row in df.iterrows()]. *)
Definition loop_body (E : environment) (counts : nat * nat)
    (item : nat * Series) : M (nat * nat) :=
  let '(imported_count, skipped_count) := counts in
  let '(index, row) := item in
  let product_name_from_csv := get "Description" row in
  let price_from_csv := get "UnitPrice" row in
  let description_for_db : option string := None in
  let category_for_db : option string := None in
  let image_url_for_db : option string := None in
  if isna product_name_from_csv
     || (strip (str product_name_from_csv) =? EmptyString)%string then
    print (SkipDescription index) ;;
    ret (imported_count, S skipped_count)
  else if isna price_from_csv then
    print (SkipPriceMissing index) ;;
    ret (imported_count, S skipped_count)
  else
    match float price_from_csv with
    | ValueError =>
        print (SkipPriceInvalid index (str price_from_csv)) ;;
        ret (imported_count, S skipped_count)
    | TypeError =>
        print (SkipPriceType index) ;;
        ret (imported_count, S skipped_count)
    | Converted price_value =>
        execute_insert E (strip (str product_name_from_csv))
          description_for_db price_value category_for_db image_url_for_db ;;
        ret (S imported_count, skipped_count)
    end.

(** The body of the [try]. *)
Definition try_body (E : environment) : M unit :=
  df <- read_csv E ;;
  print (ReadRows (len df)) ;;
  print (ColumnsDetected (columns df)) ;;
  connect E ;;
  create_table E ;;
  print TableEnsured ;;
  counts <- for_each (loop_body E) (0, 0)%nat (iterrows df) ;;
  commit E ;;
  print ImportCompleted ;;
  print (Imported (fst counts)) ;;
  if (0 <? snd counts)%nat then print (Skipped (snd counts)) else ret tt.

(** The [except] clauses. *)
Definition handler (e : exn) (w : world) : world :=
  match e with
  | FileNotFoundError => emit FileNotFound w
  | EmptyDataError => emit FileEmpty w
  | _ =>
      let w1 := emit (Unexpected e) w in
      match conn w1 with
      | Some _ => emit RolledBack (rollback w1)
      | None => w1
      end
  end.

(** The [finally] clause. *)
Definition finally (w : world) : world :=
  match conn w with
  | Some _ => close w
  | None => w
  end.

Definition import_products (E : environment) (w : world) : world :=
  let w0 := set_conn None w in
  finally
    match try_body E w0 with
    | (Return _, w1) => w1
    | (Raise e, w1) => handler e w1
    end.

(** *** Observations on a world *)

(** The process as it starts, on a given database file. *)
Definition boot (db : database) : world :=
  {| disk := db; conn := None; calls := 0; stdout := [] |}.

(** The records of the [products] table on disk. *)
Definition persisted (w : world) : list ProductRecord :=
  match disk w with
  | Some t => rows t
  | None => []
  end.

(** An environment whose database engine never fails. *)
Definition reliable (E : environment) : Prop := forall k, fault E k = false.

Definition no_fault : nat -> bool := fun _ => false.

End Importer.

Import Importer.

(* ================================================================== *)
(** ** The rows of a source, in the words of the specification *)
(* ================================================================== *)

Module Rows.

(** [Description] is present and, once trimmed, not empty. *)
Definition has_description (row : Series) : bool :=
  negb (isna (get "Description" row))
  && negb (strip (str (get "Description" row)) =? EmptyString)%string.

(** [UnitPrice] is missing. *)
Definition price_missing (row : Series) : bool := isna (get "UnitPrice" row).

(** [UnitPrice] fails numeric parsing: it is text that is no numeral, or a
    value that cannot be coerced at all. *)
Definition price_unparsable (row : Series) : bool :=
  match float (get "UnitPrice" row) with
  | ValueError | TypeError => true
  | Converted _ => false
  end.

(** The number [UnitPrice] parses as, when it is there and parses as one. *)
Definition parsed_price (row : Series) : option pyfloat :=
  if price_missing row then None
  else match float (get "UnitPrice" row) with
       | Converted x => if is_nan x then None else Some x
       | ValueError | TypeError => None
       end.

(** A valid row: a description and a price that parses as a number. *)
Definition valid (row : Series) : bool :=
  has_description row
  && match parsed_price row with Some _ => true | None => false end.

(** An invalid row: one the algorithm of the specification skips. *)
Definition invalid (row : Series) : bool :=
  negb (has_description row) || price_missing row || price_unparsable row.

(** The rows that are neither: a description, and a price whose text
    [float] reads without complaint as not-a-number. *)
Definition nan_price (row : Series) : bool :=
  has_description row && negb (price_missing row)
  && match float (get "UnitPrice" row) with
     | Converted x => is_nan x
     | ValueError | TypeError => false
     end.

(** The record the specification asks for a valid row. *)
Definition record_for (i : Z) (row : Series) (x : pyfloat) : ProductRecord :=
  {| id := i;
     product_name := strip (str (get "Description" row));
     description := None;
     price := x;
     category := None;
     image_url := None |}.

(** The records of the valid rows of a source, in order, with the ids that
    follow [n]. *)
Fixpoint records_from (n : Z) (items : list (nat * Series)) : list ProductRecord :=
  match items with
  | [] => []
  | (_, row) :: rest =>
      match parsed_price row with
      | Some x =>
          if has_description row
          then record_for (n + 1) row x :: records_from (n + 1) rest
          else records_from n rest
      | None => records_from n rest
      end
  end.

Definition count (p : Series -> bool) (items : list (nat * Series)) : nat :=
  List.length (filter (fun item => p (snd item)) items).

(** A source without a not-a-number price. *)
Definition clean (items : list (nat * Series)) : bool :=
  forallb (fun item => negb (nan_price (snd item))) items.

(** The table once the valid rows of [items] are appended to it. *)
Definition grown (t : table) (items : list (nat * Series)) : table :=
  {| rows := rows t ++ records_from (last_id t) items;
     last_id := last_id t + Z.of_nat (count valid items) |}.

(** The lines that report a skipped row. *)
Definition is_skip (m : message) : bool :=
  match m with
  | SkipDescription _ | SkipPriceMissing _
  | SkipPriceInvalid _ _ | SkipPriceType _ => true
  | _ => false
  end.

End Rows.

Import Rows.

(* ================================================================== *)
(** ** Observations on a run *)
(* ================================================================== *)

(** How the [try] body of a run ends. *)
Definition outcome (E : environment) (w : world) : result unit :=
  fst (try_body E (set_conn None w)).

(** The [products] table as the run finds it once it is ensured. *)
Definition table_of (db : database) : table :=
  match db with
  | Some t => t
  | None => empty_table
  end.

Definition items_of (E : environment) : list (nat * Series) :=
  match csv E with
  | Parsed df => iterrows df
  | _ => []
  end.

(** The closing lines of a run that went through. *)
Definition is_report (m : message) : bool :=
  match m with
  | ImportCompleted | Imported _ | Skipped _ => true
  | _ => false
  end.

Definition report (imported skipped : nat) : list message :=
  [ImportCompleted; Imported imported]
  ++ (if (0 <? skipped)%nat then [Skipped skipped] else []).

(** The world in which the loop starts: the file is read, the connection is
    open and the table is there. *)
Definition ready (df : DataFrame) (w : world) : world :=
  emit TableEnsured
    (set_conn (Some (Some (table_of (disk w))))
       (set_disk (Some (table_of (disk w)))
          (tick (tick
             (emit (ColumnsDetected (columns df))
                (emit (ReadRows (len df)) (set_conn None w))))))).

(** The columns of a record other than its id. *)
Definition fields (r : ProductRecord)
  : string * option string * pyfloat * option string * option string :=
  (product_name r, description r, price r, category r, image_url r).

(** The world when the [try] and its [except] clauses are done, before the
    [finally]. *)
Definition after_except (E : environment) (w : world) : world :=
  match try_body E (set_conn None w) with
  | (Return _, w1) => w1
  | (Raise e, w1) => handler e w1
  end.

(** The index a skip line speaks of. *)
Definition skipped_index (m : message) : option nat :=
  match m with
  | SkipDescription k | SkipPriceMissing k
  | SkipPriceInvalid k _ | SkipPriceType k => Some k
  | _ => None
  end.

(** What one turn of the loop does, by the kind of the row. *)
Inductive turn (E : environment) (i s : nat) (index : nat) (row : Series) (w : world)
  : result (nat * nat) * world -> Prop :=
| turn_skip m :
    invalid row = true -> is_skip m = true ->
    turn E i s index row w (Return (i, S s), emit m w)
| turn_insert x t :
    has_description row = true -> parsed_price row = Some x ->
    fault E (calls w) = false -> conn w = Some (Some t) ->
    turn E i s index row w
      (Return (S i, s),
       set_conn (Some (Some {| rows := rows t ++ [record_for (last_id t + 1) row x];
                               last_id := last_id t + 1 |})) (tick w))
| turn_nan :
    nan_price row = true -> fault E (calls w) = false ->
    turn E i s index row w (Raise IntegrityError, tick w)
| turn_fault :
    invalid row = false -> fault E (calls w) = true ->
    turn E i s index row w (Raise OperationalError, tick w).

(* ================================================================== *)
(** ** [Server/app.py]: the token-verification handler *)
(* ================================================================== *)

Module App.

#[local] Unset Elimination Schemes.

(** A JSON value, as [request.get_json()] and [response.json()] give it. *)
Inductive json :=
| JNull
| JBool (b : bool)
| JNum (n : Z)
| JStr (s : string)
| JArr (items : list json)
| JObj (members : list (string * json)).

#[local] Set Elimination Schemes.

(** The truth value Python gives a JSON value, for [if not token]. *)
Definition truthy (v : json) : bool :=
  match v with
  | JNull => false
  | JBool b => b
  | JNum n => negb (n =? 0)%Z
  | JStr s => negb (s =? EmptyString)%string
  | JArr items => match items with [] => false | _ => true end
  | JObj members => match members with [] => false | _ => true end
  end.

Fixpoint lookup (key : string) (members : list (string * json)) : option json :=
  match members with
  | [] => None
  | (k, v) :: rest => if (k =? key)%string then Some v else lookup key rest
  end.

(** [o.get(key, default)]; [None] is the [AttributeError] of a value that is
    not a dict. *)
Definition py_get (key : string) (default : json) (o : json) : option json :=
  match o with
  | JObj members =>
      Some match lookup key members with
           | Some v => v
           | None => default
           end
  | _ => None
  end.

(** What [requests.post] returns. *)
Record http_response := {
  status_code : Z;
  text : string;
  body : option json           (* [response.json()]; [None] when it raises *)
}.

(** What the handler returns: the JSON it sends and the status. *)
Definition flask_response : Type := json * Z.

Definition and_then {A B} (o : option A) (f : A -> option B) : option B :=
  match o with
  | Some a => f a
  | None => None
  end.

Notation "x <-- o ;; k" := (and_then o (fun x => k))
  (at level 61, o at next level, right associativity).

(** The body of the [try] of [otpless_verify]; [None] is an exception.
    [get_json] is the JSON of the request, [post] the verification service
    behind [requests.post(verify_url, json=payload, headers=headers)]. *)
Definition verify_body (post : json -> option http_response)
    (get_json : option json) : option flask_response :=
  data <-- get_json ;;
  token <-- py_get "otplessToken" JNull data ;;
  if negb (truthy token) then
    Some (JObj [("message", JStr "Missing otplessToken")], 400%Z)
  else
    let payload := JObj [("token", token)] in
    response <-- post payload ;;
    if negb (status_code response =? 200)%Z then
      Some (JObj [("message", JStr "Otpless token verification failed");
                  ("details", JStr (text response))], 401%Z)
    else
      verify_data <-- body response ;;
      user_n <-- py_get "user" (JObj []) verify_data ;;
      name <-- py_get "name" (JStr "UpLyft User") user_n ;;
      user_e <-- py_get "user" (JObj []) verify_data ;;
      email <-- py_get "email" (JStr EmptyString) user_e ;;
      user_m <-- py_get "user" (JObj []) verify_data ;;
      mobile <-- py_get "mobile" (JStr EmptyString) user_m ;;
      let user_info := JObj [("name", name); ("email", email); ("mobile", mobile)] in
      let app_token := JStr "dummy-auth-token-for-demo" in
      Some (JObj [("token", app_token); ("user", user_info)], 200%Z).

(** [otpless_verify]: the [try] with its [except Exception]. *)
Definition otpless_verify (post : json -> option http_response)
    (get_json : option json) : flask_response :=
  match verify_body post get_json with
  | Some r => r
  | None => (JObj [("message", JStr "Internal server error")], 500%Z)
  end.

(** The value of a member, or a default when the key is not there. *)
Definition member_or (default : json) (key : string)
    (members : list (string * json)) : json :=
  match lookup key members with
  | Some v => v
  | None => default
  end.

(** A service that answers every token with the same response. *)
Definition always (r : http_response) : json -> option http_response :=
  fun _ => Some r.

Definition a_request : option json :=
  Some (JObj [("otplessToken", JStr "tok-123")]).

End App.

Import App.

(* ================================================================== *)
(** ** Sources and files used as examples *)
(* ================================================================== *)

Module Examples.

(** A source with the two columns of the specification and a reliable
    engine. *)
Definition source (cells : list (list pyobj)) : environment :=
  {| csv := Parsed {| columns := ["Description"; "UnitPrice"]; data := cells |};
     fault := no_fault |}.

(** The example of the specification.  An empty field of the file reads as
    the float nan. *)
Definition blue_mug : environment :=
  source [ [PyStr "Blue Mug"; PyStr "2.50"];
           [PyFloat NaN "nan"; PyStr "3.00"];
           [PyStr "Red Pen"; PyStr "abc"];
           [PyStr "Green Pencil"; PyFloat NaN "nan"] ].

(** A price field holding the text NAN, which is not among the texts pandas
    reads as a missing value, so it comes through as a string. *)
Definition red_pen_nan : environment :=
  source [ [PyStr "Blue Mug"; PyStr "2.50"];
           [PyStr "Red Pen"; PyStr "NAN"] ].

(** A price column of numbers only, which pandas reads as floats; it reads
    the text inf as the float infinity. *)
Definition refunds : environment :=
  source [ [PyStr "Refund"; PyFloat (Finite (-5 # 1)) "-5.0"];
           [PyStr "Gold Bar"; PyFloat (Inf false) "inf"] ].

(** A file with its header line and nothing after it. *)
Definition header_only : environment := source [].

Definition missing_file : environment :=
  {| csv := NoSuchFile; fault := no_fault |}.

Definition blank_file : environment :=
  {| csv := NothingToParse; fault := no_fault |}.

(** A valid row, the NAN price, and two more rows after it, one invalid and
    one valid. *)
Definition cut_short : environment :=
  source [ [PyStr "Blue Mug"; PyStr "2.50"];
           [PyStr "Red Pen"; PyStr "NAN"];
           [PyFloat NaN "nan"; PyStr "3.00"];
           [PyStr "Green Pencil"; PyStr "1.25"] ].

End Examples.

Import Examples.

(* ================================================================== *)
(** ** The importer's store, seen from outside *)
(* ================================================================== *)

Module Store.

(** The primary keys of a table. *)
Definition ids (t : table) : list Z := map id (rows t).

(** The keys are pairwise distinct and none is above the last one handed
    out, which is what [AUTOINCREMENT] maintains. *)
Definition keyed (t : table) : Prop :=
  NoDup (ids t) /\ Forall (fun i => (i <= last_id t)%Z) (ids t).

Definition db_keyed (db : database) : Prop :=
  match db with
  | Some t => keyed t
  | None => True
  end.

(** The [k] keys that follow [n]. *)
Fixpoint upfrom (n : Z) (k : nat) : list Z :=
  match k with
  | O => []
  | S k' => (n + 1)%Z :: upfrom (n + 1) k'
  end.

(** The columns the valid rows of a source give, in the order of the
    source. *)
Definition fields_of (items : list (nat * Series))
  : list (string * option string * pyfloat * option string * option string) :=
  flat_map
    (fun item =>
       match parsed_price (snd item) with
       | Some x =>
           if has_description (snd item)
           then [(strip (str (get "Description" (snd item))), None, x, None, None)]
           else []
       | None => []
       end)
    items.

(** The indices of the invalid rows of a source, in order. *)
Definition invalid_indices (items : list (nat * Series)) : list nat :=
  map fst (filter (fun item => invalid (snd item)) items).

(** A text that starts with white space. *)
Definition padded_left (s : string) : bool :=
  match s with
  | EmptyString => false
  | String c _ => isspace c
  end.

(** A text that ends with white space. *)
Fixpoint padded_right (s : string) : bool :=
  match s with
  | EmptyString => false
  | String c EmptyString => isspace c
  | String _ s' => padded_right s'
  end.

End Store.

Import Store.

(* ================================================================== *)
(** ** [Server/app.py]: configuration, the listing and the chat *)
(* ================================================================== *)

Module Api.

(** The outcome of a step that may raise; an exception is kept as the text
    [str(e)] gives for it. *)
Inductive attempt (A : Type) :=
| Done (a : A)
| Failed (text : string).
Arguments Done {A} a.
Arguments Failed {A} text.

Definition attempt_bind {A B} (m : attempt A) (f : A -> attempt B) : attempt B :=
  match m with
  | Done a => f a
  | Failed text => Failed text
  end.

Notation "x <~ m ;; k" := (attempt_bind m (fun x => k))
  (at level 61, m at next level, right associativity).

(** *** The keys read when the module is loaded *)

Record config := {
  gemini_api_key : string;
  otpless_secret_key : string
}.

(** [if not KEY]: the variable is not set, or set to the empty text. *)
Definition missing (o : option string) : bool :=
  match o with
  | None => true
  | Some s => (s =? EmptyString)%string
  end.

(** The top of [app.py]; [getenv] is [os.getenv] once [load_dotenv()] has
    run, and a failure is the [ValueError] raised. *)
Definition startup (getenv : string -> option string) : attempt config :=
  let GEMINI_API_KEY := getenv "GEMINI_API_KEY" in
  let OTPLESS_SECRET_KEY := getenv "OTPLESS_SECRET_KEY" in
  if missing GEMINI_API_KEY then
    Failed "GEMINI_API_KEY is missing from .env file."
  else if missing OTPLESS_SECRET_KEY then
    Failed "OTPLESS_SECRET_KEY is missing from .env file."
  else
    match GEMINI_API_KEY, OTPLESS_SECRET_KEY with
    | Some g, Some o => Done {| gemini_api_key := g; otpless_secret_key := o |}
    | _, _ => Failed "GEMINI_API_KEY is missing from .env file."
    end.

(** *** [get_products] *)

(** A value of a fetched row, as it goes into the JSON of the answer. *)
Inductive cell :=
| Null
| Integer (n : Z)
| Real (x : pyfloat)
| Text (s : string).

Definition optional_text (o : option string) : cell :=
  match o with
  | Some s => Text s
  | None => Null
  end.

(** [SELECT ... FROM products] on a fresh connection, with [fetchall()].
    [engine] is a failure of sqlite3 for a reason of its own, if there is
    one; without the table the statement fails. *)
Definition select_products (engine : option string) (db : database)
  : attempt (list ProductRecord) :=
  match engine with
  | Some text => Failed text
  | None =>
      match db with
      | Some t => Done (rows t)
      | None => Failed "no such table: products"
      end
  end.

(** The dictionary built for one row. *)
Definition product_dict (row : ProductRecord) : list (string * cell) :=
  [ ("id", Integer (id row));
    ("product_name", Text (product_name row));
    ("description", optional_text (description row));
    ("price", Real (price row));
    ("category", optional_text (category row));
    ("image_url", optional_text (image_url row)) ].

Inductive listing :=
| Products (products : list (list (string * cell)))
| Error (text : string).

Definition get_products (engine : option string) (db : database) : listing * Z :=
  match select_products engine db with
  | Done rows => (Products (map product_dict rows), 200%Z)
  | Failed text => (Error text, 500%Z)
  end.

(** *** [chat] *)

Definition dquote : string := String (ascii_of_nat 34) EmptyString.

Definition newline : string := String (ascii_of_nat 10) EmptyString.

(** The name Python gives the type of a JSON value. *)
Definition type_name (v : json) : string :=
  match v with
  | JNull => "NoneType"
  | JBool _ => "bool"
  | JNum _ => "int"
  | JStr _ => "str"
  | JArr _ => "list"
  | JObj _ => "dict"
  end.

(** [o.get(key, default)] with the [AttributeError] of a value that has no
    [get]. *)
Definition get_of (key : string) (default : json) (o : json) : attempt json :=
  match py_get key default o with
  | Some v => Done v
  | None => Failed ("'" ++ type_name o ++ "' object has no attribute 'get'")
  end.

(** A value inside an f-string: a text as it is, anything else through
    [render], the [str()] of a number, a boolean, a list or a dict. *)
Definition formatted (render : json -> string) (v : json) : string :=
  match v with
  | JStr s => s
  | _ => render v
  end.

(** [f"{name}: {desc}"]; a NULL description prints as None. *)
Definition catalog_line (name : string) (desc : option string) : string :=
  name ++ ": " ++ match desc with Some d => d | None => "None" end.

(** The catalog: one line for each product, joined by new lines. *)
Definition catalog_of (rows : list ProductRecord) : string :=
  String.concat newline
    (map (fun row => catalog_line (product_name row) (description row)) rows).

(** The three pieces of text of the prompt, around the catalog and the
    message (the text is kept in UTF-8). *)
Definition prompt_head : string :=
  "
You are UpLyft Assistant 🤖🛍️ — witty, helpful, and full of energy!

Here's the UpLyft product catalog:
--- CATALOG START ---
".

Definition prompt_middle : string :=
  "
--- CATALOG END ---

Guidelines:
1. If the user asks about any product (or something similar), give helpful answers based on the catalog using emojis and fun tone.
2. If they ask something weird or off-topic (e.g. aliens, love life, Elon Musk):
   - Respond playfully 🤪 and bring the conversation back to products.
   - DO NOT say " ++ dquote ++ "invalid" ++ dquote ++ " or " ++ dquote ++ "I can't help" ++ dquote ++ ".
   - Say something funny, sarcastic, or imaginative.
3. If you're unsure, make a fun guess and redirect them gently.
4. Be confident, charming, and never boring 😄

Example:
User: do you sell watches?
Assistant: ⌚ Hmm, I wish we did! But no watches here yet. Wanna see what’s hot in our current collection? 🔥

Now answer this:

User: ".

Definition prompt_tail : string :=
  "
Assistant:
".

Definition system_prompt (catalog user_message : string) : string :=
  prompt_head ++ catalog ++ prompt_middle ++ user_message ++ prompt_tail.

(** What [model.generate_content] comes back with: a response with a text,
    a response without one, or an exception. *)
Inductive generation :=
| Reply (text : string)
| NoText
| Refused (error : string).

(** The body of the [try] of [chat]. *)
Definition chat_body (render : json -> string) (engine : option string)
    (generate : string -> generation) (get_json : attempt json)
    (db : database) : attempt (json * Z) :=
  data <~ get_json ;;
  user_message <~ get_of "message" (JStr EmptyString) data ;;
  if negb (truthy user_message) then
    Done (JObj [("error", JStr "No message provided")], 400%Z)
  else
    rows <~ select_products engine db ;;
    let catalog := catalog_of rows in
    let prompt := system_prompt catalog (formatted render user_message) in
    match generate prompt with
    | Reply text => Done (JObj [("reply", JStr text)], 200%Z)
    | NoText => Done (JObj [("error", JStr "No valid response from Gemini.")], 500%Z)
    | Refused error => Failed error
    end.

(** [chat]: the [try] with its [except Exception]. *)
Definition chat (render : json -> string) (engine : option string)
    (generate : string -> generation) (get_json : attempt json)
    (db : database) : json * Z :=
  match chat_body render engine generate get_json db with
  | Done r => r
  | Failed text => (JObj [("error", JStr text)], 500%Z)
  end.

(** A model that repeats the prompt it is given. *)
Definition echo : string -> generation := fun prompt => Reply prompt.

End Api.

Import Api.

(* ================================================================== *)
(** ** The loop *)
(* ================================================================== *)

Ltac run := unfold bind, print, ret, raise, sqlite_call; simpl.

Section Loop.

Variable E : environment.

(** Every row is of exactly one of the three kinds. *)
Lemma row_kinds (row : Series) :
  (valid row = true /\ invalid row = false /\ nan_price row = false) \/
  (valid row = false /\ invalid row = true /\ nan_price row = false) \/
  (valid row = false /\ invalid row = false /\ nan_price row = true).
Proof.
  unfold valid, invalid, nan_price, parsed_price, price_unparsable.
  destruct (has_description row); simpl;
    destruct (price_missing row); simpl; auto;
    destruct (float (get "UnitPrice" row)) as [x| |]; simpl; auto;
    destruct (is_nan x); auto.
Qed.

Lemma loop_body_turn i s index row w t :
  conn w = Some (Some t) ->
  turn E i s index row w (loop_body E (i, s) (index, row) w).
Proof.
  intros Hc. unfold loop_body.
  destruct (isna (get "Description" row)
            || (strip (str (get "Description" row)) =? EmptyString)%string) eqn:Hd.
  { run. apply turn_skip; [|reflexivity].
    unfold invalid, has_description. rewrite <- negb_orb, Hd. reflexivity. }
  assert (Hhas : has_description row = true)
    by (unfold has_description; rewrite <- negb_orb, Hd; reflexivity).
  destruct (isna (get "UnitPrice" row)) eqn:Hm.
  { run. apply turn_skip; [|reflexivity].
    unfold invalid, price_missing. rewrite Hm. apply orb_true_iff. left.
    apply orb_true_r. }
  destruct (float (get "UnitPrice" row)) as [x| |] eqn:Hf.
  - unfold execute_insert. run.
    destruct (fault E (calls w)) eqn:Hfault; simpl.
    + apply turn_fault; [|assumption].
      unfold invalid, price_missing, price_unparsable.
      rewrite Hhas, Hm, Hf. reflexivity.
    + rewrite Hc. unfold insert, bind_float.
      destruct (is_nan x) eqn:Hnan; simpl.
      * apply turn_nan; [|assumption].
        unfold nan_price, price_missing. rewrite Hhas, Hm, Hf. assumption.
      * replace (set_conn _ (tick w)) with
          (set_conn (Some (Some {| rows := rows t ++ [record_for (last_id t + 1) row x];
                                   last_id := last_id t + 1 |})) (tick w))
          by reflexivity.
        apply turn_insert; try assumption.
        unfold parsed_price, price_missing. rewrite Hm, Hf, Hnan. reflexivity.
  - run. apply turn_skip; [|reflexivity].
    unfold invalid, price_unparsable. rewrite Hf. apply orb_true_r.
  - run. apply turn_skip; [|reflexivity].
    unfold invalid, price_unparsable. rewrite Hf. apply orb_true_r.
Qed.

Lemma count_cons (p : Series -> bool) index row rest :
  count p ((index, row) :: rest)
  = if p row then S (count p rest) else count p rest.
Proof. unfold count. simpl. destruct (p row); reflexivity. Qed.

Lemma records_from_invalid n index row rest :
  invalid row = true ->
  records_from n ((index, row) :: rest) = records_from n rest.
Proof.
  intros H. simpl. unfold invalid, parsed_price, price_unparsable in *.
  destruct (has_description row); simpl in *.
  - destruct (price_missing row); simpl in *; [reflexivity|].
    destruct (float (get "UnitPrice" row)); try discriminate; reflexivity.
  - destruct (if price_missing row then None else _); reflexivity.
Qed.

Lemma records_from_valid n index row rest x :
  has_description row = true -> parsed_price row = Some x ->
  records_from n ((index, row) :: rest)
  = record_for (n + 1) row x :: records_from (n + 1) rest.
Proof. intros Hd Hp. simpl. rewrite Hp, Hd. reflexivity. Qed.

Lemma valid_of_parts row x :
  has_description row = true -> parsed_price row = Some x -> valid row = true.
Proof. intros Hd Hp. unfold valid. rewrite Hd, Hp. reflexivity. Qed.

Lemma grown_nil t : grown t [] = t.
Proof.
  destruct t as [r n]. unfold grown, count. simpl.
  rewrite app_nil_r, Z.add_0_r. reflexivity.
Qed.

Lemma grown_skip t index row rest :
  invalid row = true -> grown t ((index, row) :: rest) = grown t rest.
Proof.
  intros H. unfold grown. rewrite (records_from_invalid _ _ _ _ H), count_cons.
  destruct (row_kinds row) as [[? [? ?]]|[[-> [? ?]]|[? [? ?]]]];
    try congruence; reflexivity.
Qed.

Lemma grown_insert t index row rest x :
  has_description row = true -> parsed_price row = Some x ->
  grown t ((index, row) :: rest)
  = grown {| rows := rows t ++ [record_for (last_id t + 1) row x];
             last_id := last_id t + 1 |} rest.
Proof.
  intros Hd Hp. unfold grown.
  rewrite (records_from_valid _ _ _ _ _ Hd Hp), count_cons,
    (valid_of_parts _ _ Hd Hp).
  simpl. rewrite <- app_assoc. simpl. f_equal. lia.
Qed.

Lemma for_each_cons {A B} (body : A -> B -> M A) acc x l w :
  for_each body acc (x :: l) w
  = match body acc x w with
    | (Return a, w1) => for_each body a l w1
    | (Raise e, w1) => (Raise e, w1)
    end.
Proof. reflexivity. Qed.

(** The loop, whatever the rows and the engine: it writes nothing to disk,
    keeps the connection open and prints only skip lines; when it runs to
    its end it has counted every row once and inserted the valid ones. *)
Lemma loop_spec items :
  forall i s w t r w',
    conn w = Some (Some t) ->
    for_each (loop_body E) (i, s) items w = (r, w') ->
    disk w' = disk w
    /\ (exists t', conn w' = Some (Some t'))
    /\ exists out,
         stdout w' = stdout w ++ out
         /\ forallb is_skip out = true
         /\ match r with
            | Return c =>
                c = (i + count valid items, s + count invalid items)%nat
                /\ clean items = true
                /\ conn w' = Some (Some (grown t items))
                /\ List.length out = count invalid items
            | Raise e => e = IntegrityError \/ e = OperationalError
            end.
Proof.
  induction items as [|[index row] rest IH]; intros i s w t r w' Hc Hrun.
  - simpl in Hrun. unfold ret in Hrun. inversion Hrun; subst.
    split; [reflexivity|]. split; [eauto|].
    exists []. rewrite app_nil_r.
    unfold count, clean. simpl. rewrite grown_nil, !Nat.add_0_r.
    repeat split; auto.
  - rewrite for_each_cons in Hrun.
    pose proof (loop_body_turn i s index row w t Hc) as T.
    destruct (loop_body E (i, s) (index, row) w) as [r1 w1].
    inversion T as [m Hinv Hm | x t0 Hd Hp Hf Hc0 | Hn Hf | Hinv Hf]; subst.
    + destruct (IH i (S s) (emit m w) t r w' Hc Hrun)
        as (D & C & out & O & S & R).
      split; [assumption|]. split; [assumption|].
      exists (m :: out). simpl in O. rewrite <- app_assoc in O.
      split; [assumption|]. split; [simpl; rewrite Hm, S; reflexivity|].
      destruct r as [c|e]; [|assumption].
      destruct R as (-> & Cl & Cn & L).
      rewrite !count_cons, Hinv, (grown_skip _ _ _ _ Hinv).
      destruct (row_kinds row) as [[? [? ?]]|[[Hv [? Hn]]|[? [? ?]]]];
        try congruence.
      rewrite Hv. unfold clean in *. simpl. rewrite Hn, Cl, L. simpl.
      repeat split; try assumption. f_equal; lia.
    + rewrite Hc in Hc0. inversion Hc0; subst t0.
      match type of Hrun with for_each _ _ _ ?w2 = _ =>
        destruct (IH (S i) s w2 _ r w' eq_refl Hrun)
          as (D & C & out & O & S & R)
      end.
      split; [assumption|]. split; [assumption|].
      exists out. split; [assumption|]. split; [assumption|].
      destruct r as [c|e]; [|assumption].
      destruct R as (-> & Cl & Cn & L).
      pose proof (valid_of_parts _ _ Hd Hp) as Hv.
      rewrite !count_cons, Hv, (grown_insert _ index _ _ _ Hd Hp).
      destruct (row_kinds row) as [[? [Hi Hn]]|[[? [? ?]]|[? [? ?]]]];
        try congruence.
      rewrite Hi. unfold clean in *. simpl. rewrite Hn, Cl. simpl.
      repeat split; try assumption. f_equal; lia.
    + inversion Hrun; subst. simpl.
      split; [reflexivity|]. split; [eauto|].
      exists []. rewrite app_nil_r. auto.
    + inversion Hrun; subst. simpl.
      split; [reflexivity|]. split; [eauto|].
      exists []. rewrite app_nil_r. auto.
Qed.

(** With a reliable engine and no not-a-number price, the loop runs to its
    end. *)
Lemma loop_total items :
  reliable E -> clean items = true ->
  forall i s w t,
    conn w = Some (Some t) ->
    exists c w', for_each (loop_body E) (i, s) items w = (Return c, w').
Proof.
  intros HE. induction items as [|[index row] rest IH]; intros Hcl i s w t Hc.
  - simpl. unfold ret. eauto.
  - unfold clean in Hcl. simpl in Hcl. apply andb_true_iff in Hcl.
    destruct Hcl as [Hn Hcl]. apply negb_true_iff in Hn.
    rewrite for_each_cons.
    pose proof (loop_body_turn i s index row w t Hc) as T.
    destruct (loop_body E (i, s) (index, row) w) as [r1 w1].
    inversion T as [m Hinv Hm | x t0 Hd Hp Hf Hc0 | Hn' Hf | Hinv Hf]; subst.
    + apply (IH Hcl _ _ _ t). assumption.
    + eapply (IH Hcl). reflexivity.
    + congruence.
    + rewrite HE in Hf. discriminate.
Qed.

End Loop.

(* ================================================================== *)
(** ** A run *)
(* ================================================================== *)

Section Run.

Variable E : environment.

Lemma try_body_parsed df w :
  csv E = Parsed df ->
  try_body E w =
  (print (ReadRows (len df)) ;;
   print (ColumnsDetected (columns df)) ;;
   connect E ;;
   create_table E ;;
   print TableEnsured ;;
   counts <- for_each (loop_body E) (0, 0)%nat (iterrows df) ;;
   commit E ;;
   print ImportCompleted ;;
   print (Imported (fst counts)) ;;
   if (0 <? snd counts)%nat then print (Skipped (snd counts)) else ret tt) w.
Proof. intros H. unfold try_body, read_csv. rewrite H. reflexivity. Qed.

Lemma bind_return {A B} (m : M A) (f : A -> M B) w b w2 :
  bind m f w = (Return b, w2) ->
  exists a w1, m w = (Return a, w1) /\ f a w1 = (Return b, w2).
Proof.
  unfold bind. destruct (m w) as [[a|e] w1]; intros H; [eauto|discriminate].
Qed.

Lemma bind_raise {A B} (m : M A) (f : A -> M B) w e w2 :
  bind m f w = (Raise e, w2) ->
  m w = (Raise e, w2)
  \/ exists a w1, m w = (Return a, w1) /\ f a w1 = (Raise e, w2).
Proof.
  unfold bind. destruct (m w) as [[a|e'] w1]; intros H.
  - right; eauto.
  - left. congruence.
Qed.

Lemma connect_spec w :
  connect E w =
  if fault E (calls w) then (Raise OperationalError, tick w)
  else (Return tt, set_conn (Some (disk w)) (tick w)).
Proof.
  unfold connect, bind, sqlite_call. destruct (fault E (calls w)); reflexivity.
Qed.

Lemma create_table_spec w d :
  conn w = Some d ->
  create_table E w =
  if fault E (calls w) then (Raise OperationalError, tick w)
  else (Return tt,
        match d with
        | Some _ => tick w
        | None => set_conn (Some (Some empty_table))
                    (set_disk (Some empty_table) (tick w))
        end).
Proof.
  intros H. unfold create_table, bind, sqlite_call.
  destruct (fault E (calls w)); [reflexivity|].
  simpl. rewrite H. destruct d; reflexivity.
Qed.

Lemma commit_spec w d :
  conn w = Some d ->
  commit E w =
  if fault E (calls w) then (Raise OperationalError, tick w)
  else (Return tt, set_disk d (tick w)).
Proof.
  intros H. unfold commit, bind, sqlite_call.
  destruct (fault E (calls w)); [reflexivity|].
  simpl. rewrite H. reflexivity.
Qed.

(** The [try] body on a file that could be read, stage by stage. *)
Lemma try_body_stages df w :
  csv E = Parsed df ->
  let w2 := emit (ColumnsDetected (columns df))
              (emit (ReadRows (len df)) (set_conn None w)) in
  try_body E (set_conn None w) =
  if fault E (calls w) then (Raise OperationalError, tick w2)
  else if fault E (S (calls w))
  then (Raise OperationalError, tick (set_conn (Some (disk w)) (tick w2)))
  else
    match for_each (loop_body E) (0, 0)%nat (iterrows df) (ready df w) with
    | (Raise e, wa) => (Raise e, wa)
    | (Return counts, wa) =>
        (commit E ;;
         print ImportCompleted ;;
         print (Imported (fst counts)) ;;
         if (0 <? snd counts)%nat then print (Skipped (snd counts)) else ret tt) wa
    end.
Proof.
  intros Hcsv w2. rewrite (try_body_parsed df _ Hcsv).
  unfold bind at 1 2. unfold print at 1 2. fold w2.
  unfold bind at 1. rewrite connect_spec.
  change (calls w2) with (calls w).
  destruct (fault E (calls w)); [reflexivity|].
  unfold bind at 1. erewrite create_table_spec by reflexivity.
  change (calls (set_conn (Some (disk w2)) (tick w2))) with (S (calls w)).
  destruct (fault E (S (calls w))); [reflexivity|].
  unfold bind at 1. unfold print at 1.
  replace (emit TableEnsured _) with (ready df w).
  - unfold bind at 1. reflexivity.
  - subst w2. destruct w as [[t|] c k o]; reflexivity.
Qed.

Lemma closing_spec (counts : nat * nat) wa d :
  conn wa = Some d ->
  (commit E ;;
   print ImportCompleted ;;
   print (Imported (fst counts)) ;;
   if (0 <? snd counts)%nat then print (Skipped (snd counts)) else ret tt) wa
  = if fault E (calls wa) then (Raise OperationalError, tick wa)
    else (Return tt,
          {| disk := d; conn := Some d; calls := S (calls wa);
             stdout := stdout wa ++ report (fst counts) (snd counts) |}).
Proof.
  intros Hc. unfold bind at 1. rewrite (commit_spec _ _ Hc).
  destruct (fault E (calls wa)); [reflexivity|].
  unfold bind, print, report, ret, emit, set_disk, tick.
  destruct (0 <? snd counts)%nat; simpl; rewrite Hc, <- ?app_assoc;
    reflexivity.
Qed.

Lemma run_return w w1 :
  try_body E (set_conn None w) = (Return tt, w1) ->
  exists df out,
    csv E = Parsed df
    /\ clean (iterrows df) = true
    /\ disk w1 = Some (grown (table_of (disk w)) (iterrows df))
    /\ (exists d, conn w1 = Some d)
    /\ forallb is_skip out = true
    /\ List.length out = count invalid (iterrows df)
    /\ stdout w1 = stdout w
         ++ [ReadRows (len df); ColumnsDetected (columns df); TableEnsured]
         ++ out
         ++ report (count valid (iterrows df)) (count invalid (iterrows df)).
Proof.
  intros H. destruct (csv E) as [| | |df] eqn:Hcsv;
    try (unfold try_body, read_csv in H; rewrite Hcsv in H; discriminate).
  rewrite (try_body_stages df _ Hcsv) in H.
  destruct (fault E (calls w)); [discriminate|].
  destruct (fault E (S (calls w))); [discriminate|].
  destruct (for_each _ _ _ _) as [[counts|e] wa] eqn:Hloop; [|discriminate].
  apply loop_spec with (t := table_of (disk w)) in Hloop; [|reflexivity].
  destruct Hloop as (D & _ & out & O & S & -> & Cl & Cn & L).
  rewrite (closing_spec _ _ _ Cn) in H.
  destruct (fault E (calls wa)); [discriminate|].
  inversion H; subst w1; clear H. simpl.
  exists df, out. repeat split; eauto.
  rewrite O. simpl. rewrite <- !app_assoc. reflexivity.
Qed.

Lemma skips_are_no_report out :
  forallb is_skip out = true -> existsb is_report out = false.
Proof.
  induction out as [|m out IH]; simpl; [reflexivity|].
  intros H. apply andb_true_iff in H. destruct H as [Hm H].
  rewrite (IH H). destruct m; try discriminate; reflexivity.
Qed.

Lemma persisted_ready df w : persisted (ready df w) = persisted w.
Proof. unfold persisted. simpl. destruct (disk w); reflexivity. Qed.

(** A run that fails once the file is read: the engine or a constraint
    stopped it, and nothing of it is on disk. *)
Lemma run_raise_parsed df w e w1 :
  csv E = Parsed df ->
  try_body E (set_conn None w) = (Raise e, w1) ->
  (e = IntegrityError \/ e = OperationalError)
  /\ persisted w1 = persisted w
  /\ ((exists d, conn w1 = Some d)
      \/ (conn w1 = None /\ calls w1 = S (calls w)))
  /\ exists out,
       stdout w1 = stdout w
         ++ [ReadRows (len df); ColumnsDetected (columns df)] ++ out
       /\ existsb is_report out = false.
Proof.
  intros Hcsv H. rewrite (try_body_stages df _ Hcsv) in H.
  destruct (fault E (calls w)).
  { inversion H; subst. split; [auto|]. split; [reflexivity|].
    split; [right; auto|].
    exists []. simpl. rewrite <- app_assoc. auto. }
  destruct (fault E (S (calls w))).
  { inversion H; subst. split; [auto|]. split; [reflexivity|].
    split; [left; simpl; eauto|].
    exists []. simpl. rewrite <- app_assoc. auto. }
  destruct (for_each _ _ _ _) as [[counts|e'] wa] eqn:Hloop;
    apply loop_spec with (t := table_of (disk w)) in Hloop; try reflexivity;
    destruct Hloop as (D & (t' & C) & out & O & S & R).
  - destruct R as (-> & Cl & Cn & L).
    rewrite (closing_spec _ _ _ Cn) in H.
    destruct (fault E (calls wa)); [|discriminate].
    inversion H; subst. split; [auto|].
    split; [|split].
    + unfold persisted in *. simpl. rewrite D. apply (persisted_ready df w).
    + left. simpl. eauto.
    + exists (TableEnsured :: out). simpl. rewrite O. simpl.
      rewrite <- !app_assoc. split; [reflexivity|].
      apply skips_are_no_report. assumption.
  - inversion H; subst. split; [assumption|].
    split; [|split].
    + unfold persisted in *. rewrite D. apply (persisted_ready df w).
    + left. eauto.
    + exists (TableEnsured :: out). rewrite O. simpl.
      rewrite <- !app_assoc. split; [reflexivity|].
      apply skips_are_no_report. assumption.
Qed.

(** With a reliable engine, a file that could be read and no not-a-number
    price in it, the run goes through. *)
Lemma run_total df w :
  csv E = Parsed df -> reliable E -> clean (iterrows df) = true ->
  exists w1, try_body E (set_conn None w) = (Return tt, w1).
Proof.
  intros Hcsv HE Hcl. rewrite (try_body_stages df _ Hcsv), !HE.
  destruct (loop_total E (iterrows df) HE Hcl 0%nat 0%nat (ready df w)
              (table_of (disk w)) eq_refl) as (c & wa & Hloop).
  rewrite Hloop.
  apply loop_spec with (t := table_of (disk w)) in Hloop; [|reflexivity].
  destruct Hloop as (_ & _ & out & _ & _ & _ & _ & Cn & _).
  rewrite (closing_spec _ _ _ Cn), HE. eauto.
Qed.

Lemma import_products_return w w1 :
  try_body E (set_conn None w) = (Return tt, w1) ->
  import_products E w = finally w1.
Proof. intros H. unfold import_products. rewrite H. reflexivity. Qed.

Lemma import_products_raise w e w1 :
  try_body E (set_conn None w) = (Raise e, w1) ->
  import_products E w = finally (handler e w1).
Proof. intros H. unfold import_products. rewrite H. reflexivity. Qed.

Lemma finally_keeps w :
  disk (finally w) = disk w /\ stdout (finally w) = stdout w
  /\ conn (finally w) = None /\ calls (finally w) = calls w.
Proof. unfold finally. destruct (conn w) eqn:H; simpl; auto. Qed.

Lemma handler_keeps_disk e w : disk (handler e w) = disk w.
Proof.
  unfold handler. destruct e; simpl; try reflexivity;
    destruct (conn w); reflexivity.
Qed.

Lemma outcome_try_body w r :
  outcome E w = r -> exists w1, try_body E (set_conn None w) = (r, w1).
Proof.
  unfold outcome. destruct (try_body E (set_conn None w)) as [r' w1].
  simpl. intros ->. eauto.
Qed.

End Run.

(** *** General facts about rows and records *)

Lemma length_iterrows df : List.length (iterrows df) = len df.
Proof.
  unfold iterrows, len.
  rewrite length_combine, length_seq, length_map. apply Nat.min_id.
Qed.

Lemma length_records_from items :
  forall n, List.length (records_from n items) = count valid items.
Proof.
  induction items as [|[index row] rest IH]; intros n; [reflexivity|].
  rewrite count_cons. simpl. unfold valid.
  destruct (parsed_price row) as [x|]; destruct (has_description row);
    simpl; rewrite ?IH; reflexivity.
Qed.

(** In a clean source every row is valid or invalid, and not both. *)
Lemma clean_partition items :
  clean items = true ->
  (count valid items + count invalid items)%nat = List.length items.
Proof.
  induction items as [|[index row] rest IH]; [reflexivity|].
  unfold clean. simpl. intros H. apply andb_true_iff in H.
  destruct H as [Hn H]. apply negb_true_iff in Hn.
  rewrite !count_cons. specialize (IH H).
  destruct (row_kinds row) as [[-> [-> ?]]|[[-> [-> ?]]|[? [? ?]]]];
    try congruence; lia.
Qed.

(** Every record made from a source comes from one of its valid rows. *)
Lemma records_from_origin items :
  forall n r,
    In r (records_from n items) ->
    exists index row,
      In (index, row) items
      /\ has_description row = true
      /\ parsed_price row = Some (price r)
      /\ r = record_for (id r) row (price r).
Proof.
  induction items as [|[index row] rest IH]; intros n r H; [destruct H|].
  simpl in H.
  destruct (parsed_price row) as [x|] eqn:Hp;
    [destruct (has_description row) eqn:Hd|].
  - destruct H as [<-|H].
    + exists index, row. simpl. auto.
    + destruct (IH _ _ H) as (k & row' & I & R). exists k, row'. simpl. auto.
  - destruct (IH _ _ H) as (k & row' & I & R). exists k, row'. simpl. auto.
  - destruct (IH _ _ H) as (k & row' & I & R). exists k, row'. simpl. auto.
Qed.

Lemma parsed_price_number row x :
  parsed_price row = Some x -> is_nan x = false.
Proof.
  unfold parsed_price. destruct (price_missing row); [discriminate|].
  destruct (float (get "UnitPrice" row)) as [y| |]; try discriminate.
  destruct (is_nan y) eqn:H; [discriminate|]. intros [= <-]. assumption.
Qed.

Lemma has_description_name row :
  has_description row = true -> strip (str (get "Description" row)) <> EmptyString.
Proof.
  unfold has_description. intros H. apply andb_true_iff in H.
  destruct H as [_ H]. apply negb_true_iff in H.
  apply String.eqb_neq. assumption.
Qed.

(** What a run leaves on disk: either what was there, or that and the
    records of the valid rows of the source. *)
Lemma run_disk E w :
  match outcome E w with
  | Return _ =>
      persisted (import_products E w)
      = persisted w ++ records_from (last_id (table_of (disk w))) (items_of E)
  | Raise _ => persisted (import_products E w) = persisted w
  end.
Proof.
  destruct (outcome E w) as [[]|e] eqn:Ho;
    destruct (outcome_try_body E w _ Ho) as (w1 & H).
  - rewrite (import_products_return E _ _ H).
    destruct (run_return E _ _ H) as (df & out & Hcsv & _ & D & _).
    unfold persisted, items_of.
    destruct (finally_keeps w1) as (-> & _). rewrite D, Hcsv. simpl.
    destruct (disk w); reflexivity.
  - rewrite (import_products_raise E _ _ _ H).
    unfold persisted.
    destruct (finally_keeps (handler e w1)) as (-> & _).
    rewrite handler_keeps_disk.
    destruct (csv E) as [| | |df] eqn:Hcsv.
    1-3: unfold try_body, read_csv in H; rewrite Hcsv in H;
         inversion H; reflexivity.
    apply (run_raise_parsed E df) in H; [|assumption].
    destruct H as (_ & P & _). exact P.
Qed.

Lemma records_from_fields items :
  forall n m,
    map fields (records_from n items) = map fields (records_from m items).
Proof.
  induction items as [|[index row] rest IH]; intros n m; [reflexivity|].
  simpl. destruct (parsed_price row); [destruct (has_description row)|];
    simpl; try apply IH.
  f_equal. apply IH.
Qed.

(** An invalid row is skipped whatever the state of the connection. *)
Lemma loop_body_skip E i s index row w :
  invalid row = true ->
  exists m,
    skipped_index m = Some index
    /\ loop_body E (i, s) (index, row) w = (Return (i, S s), emit m w).
Proof.
  unfold invalid, has_description, price_missing, price_unparsable, loop_body.
  rewrite <- negb_orb, negb_involutive. intros H.
  destruct (isna (get "Description" row)
            || (strip (str (get "Description" row)) =? EmptyString)%string).
  { eexists. split; [|reflexivity]. reflexivity. }
  destruct (isna (get "UnitPrice" row)).
  { eexists. split; [|reflexivity]. reflexivity. }
  simpl in H.
  destruct (float (get "UnitPrice" row)); try discriminate;
    eexists; (split; [|reflexivity]); reflexivity.
Qed.

(** A run on a clean source with a reliable engine: it goes through, appends
    the records of the valid rows and reports both counts. *)
Lemma clean_run E w df :
  reliable E -> csv E = Parsed df -> clean (iterrows df) = true ->
  outcome E w = Return tt
  /\ persisted (import_products E w)
     = persisted w ++ records_from (last_id (table_of (disk w))) (iterrows df)
  /\ exists out,
       List.length out = count invalid (iterrows df)
       /\ stdout (import_products E w)
          = stdout w
            ++ [ReadRows (len df); ColumnsDetected (columns df); TableEnsured]
            ++ out
            ++ report (count valid (iterrows df)) (count invalid (iterrows df)).
Proof.
  intros HE Hcsv Hcl.
  destruct (run_total E df w Hcsv HE Hcl) as (w1 & H).
  assert (Ho : outcome E w = Return tt) by (unfold outcome; rewrite H; reflexivity).
  split; [assumption|]. split.
  - pose proof (run_disk E w) as D. rewrite Ho in D. rewrite D.
    unfold items_of. rewrite Hcsv. reflexivity.
  - rewrite (import_products_return E _ _ H).
    destruct (run_return E _ _ H) as (df' & out & Hcsv' & _ & _ & _ & _ & L & O).
    rewrite Hcsv in Hcsv'. inversion Hcsv'; subst df'.
    exists out. split; [assumption|].
    destruct (finally_keeps w1) as (_ & -> & _). assumption.
Qed.

(* ================================================================== *)
(** ** The properties of the specification: the importer *)
(* ================================================================== *)

Lemma source_reliable cells : reliable (source cells).
Proof. intros k. reflexivity. Qed.

(** The example of section 8 of the specification: one record, Blue Mug at
    2.50, and three rows skipped. *)
Example blue_mug_run :
  let w := import_products blue_mug (boot None) in
  persisted w
  = [ {| id := 1; product_name := "Blue Mug"; description := None;
         price := Finite (5 # 2); category := None; image_url := None |} ]
  /\ float_of_str "2.50" = Some (Finite (5 # 2))
  /\ stdout w
     = [ ReadRows 4; ColumnsDetected ["Description"; "UnitPrice"]; TableEnsured;
         SkipDescription 1; SkipPriceInvalid 2 "abc"; SkipPriceMissing 3;
         ImportCompleted; Imported 1; Skipped 3 ].
Proof. vm_compute. repeat split. Qed.

(** C1.  A source with N valid and M invalid rows should leave N records and
    report M skips.  On the source [red_pen_nan] the first row is valid and
    the second has the price text NAN: [float] reads it as not-a-number
    without raising, the row is not skipped, the insert violates the NOT NULL
    constraint of [price], and the whole run is rolled back.  No record is
    persisted and no count is reported, whichever way the second row is
    counted. *)
Theorem C1_nan_price_loses_the_run :
  let w := import_products red_pen_nan (boot None) in
  map (fun item => valid (snd item)) (items_of red_pen_nan) = [true; false]
  /\ map (fun item => invalid (snd item)) (items_of red_pen_nan) = [false; false]
  /\ isna (PyStr "NAN") = false
  /\ float (PyStr "NAN") = Converted NaN
  /\ outcome red_pen_nan (boot None) = Raise IntegrityError
  /\ persisted w = []
  /\ stdout w
     = [ ReadRows 2; ColumnsDetected ["Description"; "UnitPrice"]; TableEnsured;
         Unexpected IntegrityError; RolledBack ].
Proof. vm_compute. repeat split. Qed.

(** C2 as stated fails: a negative price and an infinite price are both
    persisted, since the importer checks neither the sign nor the size of
    the number it parsed. *)
Lemma C2_negative_and_infinite_prices_persist :
  let refund := {| id := 1; product_name := "Refund"; description := None;
                   price := Finite (-5 # 1); category := None;
                   image_url := None |} in
  let gold := {| id := 2; product_name := "Gold Bar"; description := None;
                 price := Inf false; category := None; image_url := None |} in
  persisted (import_products refunds (boot None)) = [refund; gold]
  /\ nonneg (price refund) = false
  /\ is_finite (price gold) = false.
Proof. vm_compute. repeat split. Qed.

(** C2, amended.  Every record a run adds to the table has a non-empty
    product name and a price that is a number (not NaN; it may be negative
    or infinite), and it comes from a row of the source with a description
    and a price that parses: its name is the trimmed description and its
    price the parsed number.  A row without either is never persisted. *)
Theorem C2_persisted_records_come_from_valid_rows E w r :
  In r (persisted (import_products E w)) ->
  In r (persisted w)
  \/ (product_name r <> EmptyString
      /\ is_nan (price r) = false
      /\ exists index row,
           In (index, row) (items_of E)
           /\ valid row = true
           /\ invalid row = false
           /\ product_name r = strip (str (get "Description" row))
           /\ parsed_price row = Some (price r)).
Proof.
  intros H. pose proof (run_disk E w) as D.
  destruct (outcome E w); rewrite D in H; [|left; assumption].
  apply in_app_or in H. destruct H as [H|H]; [left; assumption|right].
  destruct (records_from_origin _ _ _ H) as (index & row & I & Hd & Hp & R).
  assert (N : product_name r = strip (str (get "Description" row)))
    by (rewrite R; reflexivity).
  split; [rewrite N; apply has_description_name; assumption|].
  split; [apply (parsed_price_number row); assumption|].
  exists index, row. pose proof (valid_of_parts _ _ Hd Hp) as Hv.
  destruct (row_kinds row) as [[? [? ?]]|[[? [? ?]]|[? [? ?]]]];
    try congruence.
  auto.
Qed.

Lemma C2_witness :
  let r := {| id := 1; product_name := "Blue Mug"; description := None;
              price := Finite (5 # 2); category := None; image_url := None |} in
  In r (persisted (import_products blue_mug (boot None)))
  /\ (In r (persisted (boot None))
      \/ (product_name r <> EmptyString
          /\ is_nan (price r) = false
          /\ exists index row,
               In (index, row) (items_of blue_mug)
               /\ valid row = true
               /\ invalid row = false
               /\ product_name r = strip (str (get "Description" row))
               /\ parsed_price row = Some (price r))).
Proof.
  intros r.
  assert (H : In r (persisted (import_products blue_mug (boot None))))
    by (vm_compute; left; reflexivity).
  split; [exact H|].
  exact (C2_persisted_records_come_from_valid_rows blue_mug (boot None) r H).
Defined.

(** When the loop reaches a row whose Description is present and not
    empty once trimmed and whose UnitPrice parses as the number [x], and the
    engine takes the statement, the row is imported: one record is appended
    to the table, with the trimmed Description as its name, [x] as its price
    and no description, category or image; the imported counter goes up by
    one and the loop goes on with the next row. *)
Theorem valid_row_turn E i s index row rest w t x :
  conn w = Some (Some t) ->
  fault E (calls w) = false ->
  has_description row = true ->
  parsed_price row = Some x ->
  for_each (loop_body E) (i, s) ((index, row) :: rest) w
  = for_each (loop_body E) (S i, s) rest
      (set_conn
         (Some (Some
            {| rows := rows t
                 ++ [ {| id := last_id t + 1;
                         product_name := strip (str (get "Description" row));
                         description := None;
                         price := x;
                         category := None;
                         image_url := None |} ];
               last_id := last_id t + 1 |}))
         (tick w)).
Proof.
  intros Hc Hf Hd Hp. rewrite for_each_cons.
  pose proof (loop_body_turn E i s index row w t Hc) as T.
  pose proof (valid_of_parts _ _ Hd Hp) as Hv.
  destruct (row_kinds row) as [[_ [Hi Hn]]|[[? _]|[? _]]]; try congruence.
  destruct (loop_body E (i, s) (index, row) w) as [r1 w1].
  inversion T as [m Hinv Hm | x' t' Hd' Hp' Hf' Hc' | Hn' Hf' | Hinv Hf'];
    subst; try congruence.
  rewrite Hc in Hc'. rewrite Hp in Hp'.
  inversion Hc'; inversion Hp'; subst. reflexivity.
Qed.

Lemma valid_row_turn_example :
  let row := [("Description", PyStr "  Blue Mug "); ("UnitPrice", PyStr "2.50")] in
  let w := ready {| columns := ["Description"; "UnitPrice"]; data := [] |}
             (boot None) in
  has_description row = true
  /\ parsed_price row = Some (Finite (5 # 2))
  /\ for_each (loop_body blue_mug) (0, 0)%nat [(0%nat, row)] w
     = (Return (1, 0)%nat,
        set_conn
          (Some (Some
             {| rows := [ {| id := 1; product_name := "Blue Mug";
                             description := None; price := Finite (5 # 2);
                             category := None; image_url := None |} ];
                last_id := 1 |}))
          (tick w)).
Proof.
  intros row w.
  split; [reflexivity|]. split; [vm_compute; reflexivity|].
  exact (valid_row_turn blue_mug 0 0 0 row [] w empty_table
           (Finite (5 # 2)) eq_refl eq_refl eq_refl eq_refl).
Defined.

Lemma records_from_covers items :
  forall n index row x,
    In (index, row) items ->
    has_description row = true ->
    parsed_price row = Some x ->
    exists i, In (record_for i row x) (records_from n items).
Proof.
  induction items as [|[k row'] rest IH]; intros n index row x I Hd Hp;
    [destruct I|].
  destruct I as [I|I].
  - inversion I; subst. rewrite (records_from_valid _ _ _ _ _ Hd Hp).
    eexists. left. reflexivity.
  - simpl.
    destruct (parsed_price row'); [destruct (has_description row')|].
    + destruct (IH (n + 1)%Z _ _ _ I Hd Hp) as (i & Hi).
      exists i. right. exact Hi.
    + apply (IH n _ _ _ I Hd Hp).
    + apply (IH n _ _ _ I Hd Hp).
Qed.

(** In a run that goes through, the record of every valid row of the source
    is on disk at the end. *)
Lemma completed_run_persists_valid_rows E w index row x :
  outcome E w = Return tt ->
  In (index, row) (items_of E) ->
  has_description row = true ->
  parsed_price row = Some x ->
  exists i, In (record_for i row x) (persisted (import_products E w)).
Proof.
  intros Ho I Hd Hp. pose proof (run_disk E w) as D. rewrite Ho in D.
  destruct (records_from_covers _ (last_id (table_of (disk w))) _ _ _ I Hd Hp)
    as (i & Hi).
  exists i. rewrite D. apply in_or_app. right. exact Hi.
Qed.

(** C4.  A row whose Description is missing or blank, or whose UnitPrice is
    missing or fails numeric parsing, is skipped: the skip counter goes up
    by exactly one, the imported counter stays, the world changes by one
    skip line for that row and nothing else (no statement is sent to the
    database, no record is made), and the loop goes on with the rows that
    remain. *)
Theorem C4_invalid_row_is_skipped E i s index row rest w :
  invalid row = true ->
  exists m,
    skipped_index m = Some index
    /\ for_each (loop_body E) (i, s) ((index, row) :: rest) w
       = for_each (loop_body E) (i, S s) rest (emit m w).
Proof.
  intros H. destruct (loop_body_skip E i s index row w H) as (m & Hm & Hb).
  exists m. split; [assumption|]. rewrite for_each_cons, Hb. reflexivity.
Qed.

Lemma C4_witness :
  let row := [("Description", PyStr "Red Pen"); ("UnitPrice", PyStr "abc")] in
  invalid row = true
  /\ exists m,
       skipped_index m = Some 2%nat
       /\ for_each (loop_body blue_mug) (1, 1)%nat [(2%nat, row)] (boot None)
          = for_each (loop_body blue_mug) (1, 2)%nat [] (emit m (boot None)).
Proof.
  intros row. split; [reflexivity|].
  exact (C4_invalid_row_is_skipped blue_mug 1 1 2 row [] (boot None) eq_refl).
Defined.

(** C5.  When there is no file at the source path the run fails on the
    read: the one line printed is the file-not-found error, no call is made
    into the database, and the database file is what it was, so nothing is
    persisted and the products table is not touched. *)
Theorem C5_missing_source_changes_nothing E w :
  csv E = NoSuchFile ->
  outcome E w = Raise FileNotFoundError
  /\ stdout (import_products E w) = stdout w ++ [FileNotFound]
  /\ disk (import_products E w) = disk w
  /\ persisted (import_products E w) = persisted w
  /\ calls (import_products E w) = calls w.
Proof.
  intros H. unfold outcome, import_products, persisted, try_body, read_csv.
  rewrite H. simpl. auto.
Qed.

Lemma C5_witness :
  csv missing_file = NoSuchFile
  /\ outcome missing_file (boot None) = Raise FileNotFoundError
  /\ stdout (import_products missing_file (boot None))
     = stdout (boot None) ++ [FileNotFound]
  /\ disk (import_products missing_file (boot None)) = disk (boot None)
  /\ persisted (import_products missing_file (boot None)) = persisted (boot None)
  /\ calls (import_products missing_file (boot None)) = calls (boot None).
Proof.
  split; [reflexivity|].
  exact (C5_missing_source_changes_nothing missing_file (boot None) eq_refl).
Defined.

(** C6 as stated fails: a source that has its header line and no row is read
    as an empty table, and the run goes through with zero imports; no
    empty-source error is raised or printed. *)
Lemma C6_header_only_source_completes :
  csv header_only
  = Parsed {| columns := ["Description"; "UnitPrice"]; data := [] |}
  /\ outcome header_only (boot None) = Return tt
  /\ stdout (import_products header_only (boot None))
     = [ ReadRows 0; ColumnsDetected ["Description"; "UnitPrice"]; TableEnsured;
         ImportCompleted; Imported 0 ].
Proof. vm_compute. repeat split. Qed.

(** C6, amended.  When the file is there and holds nothing to parse, not
    even a header line, the run fails with the empty-source error: that line
    is the one printed, and the database is not touched. *)
Theorem C6_blank_source_fails E w :
  csv E = NothingToParse ->
  outcome E w = Raise EmptyDataError
  /\ stdout (import_products E w) = stdout w ++ [FileEmpty]
  /\ disk (import_products E w) = disk w
  /\ calls (import_products E w) = calls w.
Proof.
  intros H. unfold outcome, import_products, try_body, read_csv.
  rewrite H. simpl. auto.
Qed.

Lemma C6_witness :
  csv blank_file = NothingToParse
  /\ outcome blank_file (boot None) = Raise EmptyDataError
  /\ stdout (import_products blank_file (boot None))
     = stdout (boot None) ++ [FileEmpty]
  /\ disk (import_products blank_file (boot None)) = disk (boot None)
  /\ calls (import_products blank_file (boot None)) = calls (boot None).
Proof.
  split; [reflexivity|].
  exact (C6_blank_source_fails blank_file (boot None) eq_refl).
Defined.

(** When the run is stopped by an unexpected error (any other than the
    missing and the empty file) the rest of the work is dropped: no
    completion report is printed, the error line comes last but for the
    roll-back line, every insert of the run is undone and the records that
    were on disk before it are there unchanged.  The roll-back line is
    missing only when the error came before a connection was open, at the
    latest on the call that opens it, when nothing had been sent to the
    database yet. *)
Theorem unexpected_error_keeps_disk E w e :
  outcome E w = Raise e ->
  e <> FileNotFoundError ->
  e <> EmptyDataError ->
  persisted (import_products E w) = persisted w
  /\ conn (import_products E w) = None
  /\ exists out tail,
       stdout (import_products E w) = stdout w ++ out ++ Unexpected e :: tail
       /\ existsb is_report out = false
       /\ (tail = [RolledBack]
           \/ (tail = [] /\ calls (import_products E w) <= S (calls w))%nat).
Proof.
  intros Ho Hf He.
  pose proof (run_disk E w) as D. rewrite Ho in D.
  split; [assumption|].
  destruct (outcome_try_body E w _ Ho) as (w1 & H).
  rewrite (import_products_raise E _ _ _ H).
  destruct (finally_keeps (handler e w1)) as (_ & -> & -> & ->).
  split; [reflexivity|].
  assert (S : exists out,
             stdout w1 = stdout w ++ out /\ existsb is_report out = false
             /\ ((exists d, conn w1 = Some d)
                 \/ (conn w1 = None /\ calls w1 <= S (calls w))%nat)).
  { destruct (csv E) as [| | |df] eqn:Hcsv.
    1-3: unfold try_body, read_csv in H; rewrite Hcsv in H;
         inversion H; subst; try congruence.
    - exists []. rewrite app_nil_r. simpl.
      split; [reflexivity|]. split; [reflexivity|]. right. auto.
    - destruct (run_raise_parsed E df _ _ _ Hcsv H)
        as (_ & _ & C & out & O & R).
      exists (ReadRows (len df) :: ColumnsDetected (columns df) :: out).
      split; [assumption|]. split; [assumption|].
      destruct C as [C|[C ->]]; [left; assumption|right; auto]. }
  destruct S as (out & O & R & C).
  exists out.
  assert (Hh : handler e w1
               = match conn w1 with
                 | Some _ => emit RolledBack (rollback (emit (Unexpected e) w1))
                 | None => emit (Unexpected e) w1
                 end)
    by (unfold handler; destruct e; try congruence; reflexivity).
  rewrite Hh.
  destruct C as [[d C]|[C L]]; rewrite C.
  - exists [RolledBack]. simpl. rewrite O, <- !app_assoc. simpl. auto.
  - exists []. simpl. rewrite O, <- !app_assoc. simpl. auto.
Qed.

Lemma unexpected_error_keeps_disk_example :
  let w := import_products blue_mug (boot None) in
  outcome red_pen_nan w = Raise IntegrityError
  /\ persisted (import_products red_pen_nan w) = persisted w
  /\ conn (import_products red_pen_nan w) = None
  /\ exists out tail,
       stdout (import_products red_pen_nan w)
       = stdout w ++ out ++ Unexpected IntegrityError :: tail
       /\ existsb is_report out = false
       /\ (tail = [RolledBack]
           \/ (tail = []
               /\ calls (import_products red_pen_nan w) <= S (calls w))%nat).
Proof.
  intros w.
  assert (H : outcome red_pen_nan w = Raise IntegrityError)
    by (vm_compute; reflexivity).
  split; [exact H|].
  apply (unexpected_error_keeps_disk red_pen_nan w IntegrityError H);
    discriminate.
Defined.

(** C8.  Run twice on the same valid source (every row valid or invalid,
    the engine reliable) without clearing the store, the importer appends
    the records of the N valid rows twice: the table grows by 2 x N records,
    and the second N repeat the first N in every column but the id. *)
Theorem C8_second_run_duplicates E w df :
  reliable E ->
  csv E = Parsed df ->
  clean (iterrows df) = true ->
  exists first second,
    persisted (import_products E (import_products E w))
    = persisted w ++ first ++ second
    /\ List.length first = count valid (iterrows df)
    /\ List.length second = count valid (iterrows df)
    /\ map fields second = map fields first
    /\ List.length (persisted (import_products E (import_products E w)))
       = (List.length (persisted w) + 2 * count valid (iterrows df))%nat.
Proof.
  intros HE Hcsv Hcl.
  destruct (clean_run E w df HE Hcsv Hcl) as (_ & P1 & _).
  destruct (clean_run E (import_products E w) df HE Hcsv Hcl) as (_ & P2 & _).
  eexists. eexists. rewrite P2, P1, <- app_assoc.
  split; [reflexivity|].
  rewrite !length_app, !length_records_from.
  repeat split; [apply records_from_fields | lia].
Qed.

Lemma C8_witness :
  reliable blue_mug
  /\ clean (items_of blue_mug) = true
  /\ exists first second,
       persisted (import_products blue_mug (import_products blue_mug (boot None)))
       = persisted (boot None) ++ first ++ second
       /\ List.length first = 1%nat
       /\ List.length second = 1%nat
       /\ map fields second = map fields first
       /\ List.length
            (persisted (import_products blue_mug
                          (import_products blue_mug (boot None))))
          = 2%nat.
Proof.
  split; [apply source_reliable|]. split; [reflexivity|].
  exact (C8_second_run_duplicates blue_mug (boot None) _
           (source_reliable _) eq_refl eq_refl).
Defined.

(** C10.  In a run that goes through, every row read from the source is
    counted once, as imported or as skipped: the imported count and the skip
    count that the run reports add up to the number of rows it read, the
    imported count is the number of records added and the skip count the
    number of skip lines printed. *)
Theorem C10_imported_plus_skipped_is_rows_read E w :
  outcome E w = Return tt ->
  exists df imported skipped added out,
    csv E = Parsed df
    /\ stdout (import_products E w)
       = stdout w
         ++ [ReadRows (len df); ColumnsDetected (columns df); TableEnsured]
         ++ out ++ report imported skipped
    /\ (imported + skipped)%nat = len df
    /\ imported = count valid (iterrows df)
    /\ skipped = count invalid (iterrows df)
    /\ persisted (import_products E w) = persisted w ++ added
    /\ List.length added = imported
    /\ List.length out = skipped
    /\ forallb is_skip out = true.
Proof.
  intros Ho. pose proof (run_disk E w) as D. rewrite Ho in D.
  destruct (outcome_try_body E w _ Ho) as (w1 & H).
  destruct (run_return E _ _ H) as (df & out & Hcsv & Hcl & _ & _ & S & L & O).
  exists df, (count valid (iterrows df)), (count invalid (iterrows df)).
  exists (records_from (last_id (table_of (disk w))) (iterrows df)), out.
  rewrite (import_products_return E _ _ H) in *.
  destruct (finally_keeps w1) as (_ & -> & _).
  unfold items_of in D. rewrite Hcsv in D.
  rewrite (clean_partition _ Hcl), length_iterrows, length_records_from.
  repeat split; assumption.
Qed.

Lemma C10_witness :
  outcome blue_mug (boot None) = Return tt
  /\ exists df imported skipped added out,
       csv blue_mug = Parsed df
       /\ stdout (import_products blue_mug (boot None))
          = stdout (boot None)
            ++ [ReadRows (len df); ColumnsDetected (columns df); TableEnsured]
            ++ out ++ report imported skipped
       /\ (imported + skipped)%nat = len df
       /\ imported = count valid (iterrows df)
       /\ skipped = count invalid (iterrows df)
       /\ persisted (import_products blue_mug (boot None))
          = persisted (boot None) ++ added
       /\ List.length added = imported
       /\ List.length out = skipped
       /\ forallb is_skip out = true.
Proof.
  assert (H : outcome blue_mug (boot None) = Return tt)
    by (vm_compute; reflexivity).
  split; [exact H|].
  exact (C10_imported_plus_skipped_is_rows_read blue_mug (boot None) H).
Defined.

(** C9 as stated fails: a response the handler accepts as successful
    (status 200) whose body has a ["user"] that is no object, here null,
    makes the second [get] raise, and the handler answers 500 with no
    profile and no credential. *)
Lemma C9_null_user_is_an_internal_error :
  let ok := {| status_code := 200; text := "null user";
               body := Some (JObj [("user", JNull)]) |} in
  otpless_verify (always ok) a_request
  = (JObj [("message", JStr "Internal server error")], 500%Z).
Proof. reflexivity. Qed.

(** C9, amended.  For a response with status 200 whose body is a JSON
    object in which ["user"] is absent or is itself an object, the handler
    answers 200 with the placeholder credential and a profile of exactly the
    three fields name, email and mobile; a field whose key the user object
    does not have gets its default ("UpLyft User", the empty string, the
    empty string), a key that is there is passed on as it is. *)
Theorem C9_profile_with_defaults post data token response verify_data user :
  py_get "otplessToken" JNull data = Some token ->
  truthy token = true ->
  post (JObj [("token", token)]) = Some response ->
  status_code response = 200%Z ->
  body response = Some verify_data ->
  py_get "user" (JObj []) verify_data = Some (JObj user) ->
  otpless_verify post (Some data)
  = (JObj [ ("token", JStr "dummy-auth-token-for-demo");
            ("user", JObj [ ("name", member_or (JStr "UpLyft User") "name" user);
                            ("email", member_or (JStr EmptyString) "email" user);
                            ("mobile", member_or (JStr EmptyString) "mobile" user) ]) ],
     200%Z).
Proof.
  intros Ht Htruthy Hpost Hstatus Hbody Huser.
  unfold otpless_verify, verify_body, and_then.
  rewrite Ht, Htruthy. simpl. rewrite Hpost, Hstatus. simpl.
  rewrite Hbody, Huser. reflexivity.
Qed.

Lemma C9_witness :
  let response := {| status_code := 200; text := EmptyString;
                     body := Some (JObj [("user", JObj [("email", JStr "a@b.c")])]) |} in
  otpless_verify (always response) a_request
  = (JObj [ ("token", JStr "dummy-auth-token-for-demo");
            ("user", JObj [ ("name", JStr "UpLyft User");
                            ("email", JStr "a@b.c");
                            ("mobile", JStr EmptyString) ]) ],
     200%Z).
Proof.
  intros response.
  exact (C9_profile_with_defaults (always response)
           (JObj [("otplessToken", JStr "tok-123")]) (JStr "tok-123") response
           (JObj [("user", JObj [("email", JStr "a@b.c")])])
           [("email", JStr "a@b.c")]
           eq_refl eq_refl eq_refl eq_refl eq_refl eq_refl).
Defined.

(* ================================================================== *)
(** ** Further properties of the importer *)
(* ================================================================== *)

Section Trace.

Variable E : environment.

(** The loop, when it runs to its end: one statement for each valid row and
    none for the others, one skip line for each invalid row, carrying the
    index of the row, in the order of the source. *)
Lemma loop_trace items :
  forall i s w t c w',
    conn w = Some (Some t) ->
    for_each (loop_body E) (i, s) items w = (Return c, w') ->
    calls w' = (calls w + count valid items)%nat
    /\ exists out,
         stdout w' = stdout w ++ out
         /\ map skipped_index out = map Some (invalid_indices items).
Proof.
  induction items as [|[index row] rest IH]; intros i s w t c w' Hc Hrun.
  - simpl in Hrun. unfold ret in Hrun. inversion Hrun; subst.
    split; [unfold count; simpl; lia|].
    exists []. rewrite app_nil_r. auto.
  - rewrite for_each_cons in Hrun. rewrite count_cons.
    unfold invalid_indices in *. simpl.
    destruct (invalid row) eqn:Hinv.
    + destruct (loop_body_skip E i s index row w Hinv) as (m & Hm & Hb).
      rewrite Hb in Hrun.
      destruct (IH i (S s) (emit m w) t c w' Hc Hrun) as (Ca & out & O & S).
      destruct (row_kinds row) as [[? [? ?]]|[[Hv _]|[? [? ?]]]];
        try congruence.
      rewrite Hv. split; [assumption|].
      exists (m :: out). simpl in O. rewrite <- app_assoc in O.
      split; [assumption|]. simpl. rewrite Hm, S. reflexivity.
    + pose proof (loop_body_turn E i s index row w t Hc) as T.
      destruct (loop_body E (i, s) (index, row) w) as [r1 w1].
      inversion T as [m Hinv' Hm | x t0 Hd Hp Hf Hc0 | Hn Hf | Hinv' Hf];
        subst; try congruence; try discriminate.
      match type of Hrun with for_each _ _ _ ?w2 = _ =>
        destruct (IH _ _ w2 _ _ _ eq_refl Hrun) as (Ca & out & O & S)
      end.
      rewrite (valid_of_parts _ _ Hd Hp). simpl in Ca.
      split; [lia|]. exists out. split; assumption.
Qed.

(** A run that goes through, with what only the trace shows. *)
Lemma run_return_trace w w1 :
  try_body E (set_conn None w) = (Return tt, w1) ->
  exists df out,
    csv E = Parsed df
    /\ calls w1 = (calls w + 3 + count valid (iterrows df))%nat
    /\ map skipped_index out = map Some (invalid_indices (iterrows df))
    /\ stdout w1 = stdout w
         ++ [ReadRows (len df); ColumnsDetected (columns df); TableEnsured]
         ++ out
         ++ report (count valid (iterrows df)) (count invalid (iterrows df)).
Proof.
  intros H. destruct (csv E) as [| | |df] eqn:Hcsv;
    try (unfold try_body, read_csv in H; rewrite Hcsv in H; discriminate).
  rewrite (try_body_stages E df _ Hcsv) in H.
  destruct (fault E (calls w)); [discriminate|].
  destruct (fault E (S (calls w))); [discriminate|].
  destruct (for_each _ _ _ _) as [[counts|e] wa] eqn:Hloop; [|discriminate].
  pose proof Hloop as Htrace.
  apply loop_trace with (t := table_of (disk w)) in Htrace; [|reflexivity].
  apply loop_spec with (t := table_of (disk w)) in Hloop; [|reflexivity].
  destruct Hloop as (_ & _ & _ & _ & _ & -> & _ & Cn & _).
  destruct Htrace as (Ca & out & O & S).
  rewrite (closing_spec E _ _ _ Cn) in H.
  destruct (fault E (calls wa)); [discriminate|].
  inversion H; subst w1; clear H. simpl.
  exists df, out. split; [reflexivity|].
  split; [rewrite Ca; simpl; lia|]. split; [assumption|].
  rewrite O. simpl. rewrite <- !app_assoc. reflexivity.
Qed.

(** Where a failed run leaves the database file: as it was, or with the
    table it had to create. *)
Lemma run_raise_disk w e w1 :
  try_body E (set_conn None w) = (Raise e, w1) ->
  disk w1 = disk w \/ disk w1 = Some (table_of (disk w)).
Proof.
  intros H. destruct (csv E) as [| | |df] eqn:Hcsv;
    try (unfold try_body, read_csv in H; rewrite Hcsv in H;
         inversion H; left; reflexivity).
  rewrite (try_body_stages E df _ Hcsv) in H.
  destruct (fault E (calls w)); [inversion H; left; reflexivity|].
  destruct (fault E (S (calls w))); [inversion H; left; reflexivity|].
  destruct (for_each _ _ _ _) as [[counts|e'] wa] eqn:Hloop;
    apply loop_spec with (t := table_of (disk w)) in Hloop; try reflexivity;
    destruct Hloop as (D & _ & out & _ & _ & R).
  - destruct R as (_ & _ & Cn & _).
    rewrite (closing_spec E _ _ _ Cn) in H.
    destruct (fault E (calls wa)); [|discriminate].
    inversion H; subst. right. simpl. rewrite D. reflexivity.
  - inversion H; subst. right. rewrite D. reflexivity.
Qed.

End Trace.

Lemma records_from_ids items :
  forall n, map id (records_from n items) = upfrom n (count valid items).
Proof.
  induction items as [|[index row] rest IH]; intros n; [reflexivity|].
  rewrite count_cons. simpl. unfold valid.
  destruct (parsed_price row) as [x|]; destruct (has_description row);
    simpl; rewrite ?IH; reflexivity.
Qed.

Lemma records_from_fields_of items :
  forall n, map fields (records_from n items) = fields_of items.
Proof.
  induction items as [|[index row] rest IH]; intros n; [reflexivity|].
  unfold fields_of in *. simpl.
  destruct (parsed_price row) as [x|]; destruct (has_description row);
    simpl; rewrite ?IH; reflexivity.
Qed.

Lemma upfrom_bounds k :
  forall n i, In i (upfrom n k) -> (n < i <= n + Z.of_nat k)%Z.
Proof.
  induction k as [|k IH]; intros n i H; [destruct H|].
  simpl in H. destruct H as [<-|H]; [lia|].
  apply IH in H. lia.
Qed.

Lemma upfrom_nodup k : forall n, NoDup (upfrom n k).
Proof.
  induction k as [|k IH]; intros n; simpl; constructor; [|apply IH].
  intros H. apply upfrom_bounds in H. lia.
Qed.

Lemma keyed_grown t items : keyed t -> keyed (grown t items).
Proof.
  intros [Hn Hb]. unfold keyed, ids, grown in *. simpl.
  rewrite map_app, records_from_ids. split.
  - apply NoDup_app; [assumption | apply upfrom_nodup |].
    intros i Hi Hu. apply upfrom_bounds in Hu.
    rewrite Forall_forall in Hb. specialize (Hb _ Hi). lia.
  - apply Forall_app. split.
    + eapply Forall_impl; [|exact Hb]. simpl. intros; lia.
    + apply Forall_forall. intros i Hu. apply upfrom_bounds in Hu. lia.
Qed.

Lemma keyed_table_of db : db_keyed db -> keyed (table_of db).
Proof.
  destruct db as [t|]; simpl; [auto|]. intros _.
  split; [constructor|constructor].
Qed.

(** X1.  A run is all or nothing, and it only appends: whatever the source
    and whatever the database engine does, the table afterwards is the table
    before, or the table before followed by the records of all the valid
    rows of the source, in the order of the source; the second only when the
    run went through. *)
Theorem X1_run_is_all_or_nothing E w :
  persisted (import_products E w) = persisted w
  \/ (outcome E w = Return tt
      /\ exists added,
           persisted (import_products E w) = persisted w ++ added
           /\ map fields added = fields_of (items_of E)).
Proof.
  pose proof (run_disk E w) as D.
  destruct (outcome E w) as [[]|e]; [right|left; assumption].
  split; [reflexivity|].
  eexists. split; [exact D|]. apply records_from_fields_of.
Qed.

(** X2.  In a run that goes through, the records added get the keys that
    follow the last key of the table, one after the other, in the order of
    the source. *)
Theorem X2_added_records_get_consecutive_ids E w :
  outcome E w = Return tt ->
  exists added,
    persisted (import_products E w) = persisted w ++ added
    /\ map id added
       = upfrom (last_id (table_of (disk w))) (count valid (items_of E)).
Proof.
  intros Ho. pose proof (run_disk E w) as D. rewrite Ho in D.
  eexists. split; [exact D|]. apply records_from_ids.
Qed.

Lemma X2_witness :
  outcome blue_mug (import_products blue_mug (boot None)) = Return tt
  /\ exists added,
       persisted (import_products blue_mug (import_products blue_mug (boot None)))
       = persisted (import_products blue_mug (boot None)) ++ added
       /\ map id added = [2%Z].
Proof.
  assert (H : outcome blue_mug (import_products blue_mug (boot None)) = Return tt)
    by (vm_compute; reflexivity).
  split; [exact H|].
  exact (X2_added_records_get_consecutive_ids blue_mug _ H).
Defined.

(** X3.  Every run keeps the primary keys sound: when the keys of the table
    are pairwise distinct and none is above the last key handed out, they
    still are after the run, whether it went through or was rolled back. *)
Theorem X3_run_keeps_ids_unique E w :
  db_keyed (disk w) -> db_keyed (disk (import_products E w)).
Proof.
  intros K.
  destruct (try_body E (set_conn None w)) as [[[]|e] w1] eqn:H.
  - rewrite (import_products_return E _ _ H).
    destruct (finally_keeps w1) as (-> & _).
    destruct (run_return E _ _ H) as (df & out & _ & _ & -> & _).
    simpl. apply keyed_grown, keyed_table_of. assumption.
  - rewrite (import_products_raise E _ _ _ H).
    destruct (finally_keeps (handler e w1)) as (-> & _).
    rewrite handler_keeps_disk.
    destruct (run_raise_disk E _ _ _ H) as [->| ->]; [assumption|].
    simpl. apply keyed_table_of. assumption.
Qed.

Lemma X3_witness :
  db_keyed (disk (boot None))
  /\ db_keyed (disk (import_products red_pen_nan
                       (import_products blue_mug (boot None)))).
Proof.
  split; [exact I|].
  apply X3_run_keeps_ids_unique, X3_run_keeps_ids_unique. exact I.
Defined.

(** X4.  A run that goes through makes three calls into the database (to
    connect, to ensure the table, to commit) and one more for each valid
    row; a skipped row costs no statement. *)
Theorem X4_one_statement_for_each_valid_row E w :
  outcome E w = Return tt ->
  calls (import_products E w)
  = (calls w + 3 + count valid (items_of E))%nat.
Proof.
  intros Ho. destruct (outcome_try_body E w _ Ho) as (w1 & H).
  rewrite (import_products_return E _ _ H).
  destruct (finally_keeps w1) as (_ & _ & _ & ->).
  destruct (run_return_trace E _ _ H) as (df & out & Hcsv & Ca & _).
  unfold items_of. rewrite Hcsv. assumption.
Qed.

Lemma X4_witness :
  outcome blue_mug (boot None) = Return tt
  /\ calls (import_products blue_mug (boot None)) = 4%nat.
Proof.
  assert (H : outcome blue_mug (boot None) = Return tt)
    by (vm_compute; reflexivity).
  split; [exact H|].
  exact (X4_one_statement_for_each_valid_row blue_mug (boot None) H).
Defined.

(** X5.  In a run that goes through, every skipped row is reported on a
    line of its own that carries the index of the row, and these lines come
    in the order of the source, between the opening lines and the closing
    report. *)
Theorem X5_skip_lines_name_the_skipped_rows E w :
  outcome E w = Return tt ->
  exists df out,
    csv E = Parsed df
    /\ stdout (import_products E w)
       = stdout w
         ++ [ReadRows (len df); ColumnsDetected (columns df); TableEnsured]
         ++ out
         ++ report (count valid (iterrows df)) (count invalid (iterrows df))
    /\ map skipped_index out = map Some (invalid_indices (iterrows df)).
Proof.
  intros Ho. destruct (outcome_try_body E w _ Ho) as (w1 & H).
  rewrite (import_products_return E _ _ H).
  destruct (finally_keeps w1) as (_ & -> & _).
  destruct (run_return_trace E _ _ H) as (df & out & Hcsv & _ & S & O).
  exists df, out. auto.
Qed.

Lemma X5_witness :
  outcome blue_mug (boot None) = Return tt
  /\ exists df out,
       csv blue_mug = Parsed df
       /\ stdout (import_products blue_mug (boot None))
          = stdout (boot None)
            ++ [ReadRows (len df); ColumnsDetected (columns df); TableEnsured]
            ++ out
            ++ report (count valid (iterrows df)) (count invalid (iterrows df))
       /\ map skipped_index out = map Some (invalid_indices (iterrows df)).
Proof.
  assert (H : outcome blue_mug (boot None) = Return tt)
    by (vm_compute; reflexivity).
  split; [exact H|].
  exact (X5_skip_lines_name_the_skipped_rows blue_mug (boot None) H).
Defined.

Lemma lstrip_not_padded s : padded_left (lstrip s) = false.
Proof.
  induction s as [|c s IH]; [reflexivity|].
  simpl. destruct (isspace c) eqn:H; [assumption|]. simpl. assumption.
Qed.

Lemma rstrip_keeps_head s :
  padded_left s = false -> padded_left (rstrip s) = false.
Proof.
  destruct s as [|c s]; [reflexivity|]. simpl. intros H.
  destruct (rstrip s); [rewrite H|]; simpl; assumption.
Qed.

Lemma rstrip_not_padded s : padded_right (rstrip s) = false.
Proof.
  induction s as [|c s IH]; [reflexivity|].
  simpl. destruct (rstrip s) as [|c' r].
  - destruct (isspace c) eqn:H; [reflexivity|]. simpl. assumption.
  - simpl in *. assumption.
Qed.

Lemma strip_not_padded s :
  padded_left (strip s) = false /\ padded_right (strip s) = false.
Proof.
  unfold strip. split.
  - apply rstrip_keeps_head, lstrip_not_padded.
  - apply rstrip_not_padded.
Qed.

(** X6.  No product name written by the importer starts or ends with white
    space: every record a run adds has a name with a character that is not
    white space at both ends. *)
Theorem X6_stored_names_are_trimmed E w r :
  In r (persisted (import_products E w)) ->
  In r (persisted w)
  \/ (padded_left (product_name r) = false
      /\ padded_right (product_name r) = false
      /\ product_name r <> EmptyString).
Proof.
  intros H. pose proof (run_disk E w) as D.
  destruct (outcome E w); rewrite D in H; [|left; assumption].
  apply in_app_or in H. destruct H as [H|H]; [left; assumption|right].
  destruct (records_from_origin _ _ _ H) as (index & row & _ & Hd & _ & R).
  assert (N : product_name r = strip (str (get "Description" row)))
    by (rewrite R; reflexivity).
  rewrite N.
  destruct (strip_not_padded (str (get "Description" row))) as [L Rt].
  repeat split; try assumption. apply has_description_name. assumption.
Qed.

Lemma X6_witness :
  let padded := source [ [PyStr "   Blue Mug  "; PyStr "2.50"] ] in
  let r := {| id := 1; product_name := "Blue Mug"; description := None;
              price := Finite (5 # 2); category := None; image_url := None |} in
  In r (persisted (import_products padded (boot None)))
  /\ (In r (persisted (boot None))
      \/ (padded_left (product_name r) = false
          /\ padded_right (product_name r) = false
          /\ product_name r <> EmptyString)).
Proof.
  intros padded r.
  assert (H : In r (persisted (import_products padded (boot None))))
    by (vm_compute; left; reflexivity).
  split; [exact H|].
  exact (X6_stored_names_are_trimmed padded (boot None) r H).
Defined.

(** X7.  Run k times in a row on the same valid source, the importer adds
    the N valid rows k times over: nothing is ever recognised as already
    there. *)
Theorem X7_every_rerun_appends_again E w df k :
  reliable E ->
  csv E = Parsed df ->
  clean (iterrows df) = true ->
  List.length (persisted (Nat.iter k (import_products E) w))
  = (List.length (persisted w) + k * count valid (iterrows df))%nat.
Proof.
  intros HE Hcsv Hcl. induction k as [|k IH]; [simpl; lia|].
  simpl.
  destruct (clean_run E (Nat.iter k (import_products E) w) df HE Hcsv Hcl)
    as (_ & P & _).
  rewrite P, length_app, length_records_from, IH. lia.
Qed.

Lemma X7_witness :
  reliable blue_mug
  /\ clean (items_of blue_mug) = true
  /\ List.length (persisted (Nat.iter 3 (import_products blue_mug) (boot None)))
     = 3%nat.
Proof.
  split; [apply source_reliable|]. split; [reflexivity|].
  exact (X7_every_rerun_appends_again blue_mug (boot None) _ 3
           (source_reliable _) eq_refl eq_refl).
Defined.

(** X8.  When the database cannot be opened, the run stops after the two
    opening lines with the unexpected-error line; since there is no
    connection, no roll-back is attempted or announced, and the database
    file is what it was. *)
Theorem X8_failed_connect_is_not_rolled_back E w df :
  csv E = Parsed df ->
  fault E (calls w) = true ->
  stdout (import_products E w)
  = stdout w ++ [ReadRows (len df); ColumnsDetected (columns df);
                 Unexpected OperationalError]
  /\ disk (import_products E w) = disk w
  /\ conn (import_products E w) = None
  /\ calls (import_products E w) = S (calls w).
Proof.
  intros Hcsv Hf. unfold import_products.
  rewrite (try_body_stages E df w Hcsv), Hf.
  unfold handler, finally, emit. simpl. rewrite <- !app_assoc. auto.
Qed.

Lemma X8_witness :
  let locked := {| csv := csv blue_mug; fault := fun k => (k =? 0)%nat |} in
  fault locked (calls (boot None)) = true
  /\ stdout (import_products locked (boot None))
     = stdout (boot None)
       ++ [ReadRows 4; ColumnsDetected ["Description"; "UnitPrice"];
           Unexpected OperationalError]
  /\ disk (import_products locked (boot None)) = disk (boot None)
  /\ conn (import_products locked (boot None)) = None
  /\ calls (import_products locked (boot None)) = S (calls (boot None)).
Proof.
  intros locked. split; [reflexivity|].
  exact (X8_failed_connect_is_not_rolled_back locked (boot None) _
           eq_refl eq_refl).
Defined.

(* ================================================================== *)
(** ** Further properties of the token-verification handler *)
(* ================================================================== *)

(** X9.  A request whose JSON is an object without a usable token (the key
    is missing, or its value is null, empty, zero or false) is answered 400
    and the verification service is not consulted: the answer is the same
    whatever the service would have said. *)
Theorem X9_missing_token_is_rejected post data token :
  py_get "otplessToken" JNull data = Some token ->
  truthy token = false ->
  otpless_verify post (Some data)
  = (JObj [("message", JStr "Missing otplessToken")], 400%Z).
Proof.
  intros Ht Hf. unfold otpless_verify, verify_body, and_then.
  rewrite Ht, Hf. reflexivity.
Qed.

Lemma X9_witness :
  let willing := always {| status_code := 200; text := EmptyString;
                           body := Some (JObj []) |} in
  otpless_verify willing (Some (JObj [("otplessToken", JStr EmptyString)]))
  = (JObj [("message", JStr "Missing otplessToken")], 400%Z).
Proof.
  intros willing.
  exact (X9_missing_token_is_rejected willing
           (JObj [("otplessToken", JStr EmptyString)]) (JStr EmptyString)
           eq_refl eq_refl).
Defined.

(** X10.  When the verification service answers with any status other than
    200, the handler answers 401 and hands the text of the service's answer
    back under [details]; the body of that answer is not looked at. *)
Theorem X10_refused_token_is_unauthorised post data token response :
  py_get "otplessToken" JNull data = Some token ->
  truthy token = true ->
  post (JObj [("token", token)]) = Some response ->
  status_code response <> 200%Z ->
  otpless_verify post (Some data)
  = (JObj [("message", JStr "Otpless token verification failed");
           ("details", JStr (text response))], 401%Z).
Proof.
  intros Ht Htr Hp Hs. unfold otpless_verify, verify_body, and_then.
  rewrite Ht, Htr. simpl. rewrite Hp.
  apply Z.eqb_neq in Hs. rewrite Hs. reflexivity.
Qed.

Lemma X10_witness :
  let response := {| status_code := 403; text := "expired"; body := None |} in
  otpless_verify (always response) a_request
  = (JObj [("message", JStr "Otpless token verification failed");
           ("details", JStr "expired")], 401%Z).
Proof.
  intros response.
  apply (X10_refused_token_is_unauthorised (always response)
           (JObj [("otplessToken", JStr "tok-123")]) (JStr "tok-123") response);
    [reflexivity | reflexivity | reflexivity | discriminate].
Defined.

(** X11.  The handler never answers 200 on its own account: a 200 means
    that the request carried a usable token, that this very token was sent
    to the verification service, and that the service answered 200; the
    answer then holds the placeholder credential and a profile of the three
    fields. *)
Theorem X11_success_needs_the_service post request answer :
  otpless_verify post request = (answer, 200%Z) ->
  exists data token response name email mobile,
    request = Some data
    /\ py_get "otplessToken" JNull data = Some token
    /\ truthy token = true
    /\ post (JObj [("token", token)]) = Some response
    /\ status_code response = 200%Z
    /\ answer = JObj [ ("token", JStr "dummy-auth-token-for-demo");
                       ("user", JObj [("name", name); ("email", email);
                                      ("mobile", mobile)]) ].
Proof.
  unfold otpless_verify, verify_body, and_then. intros H.
  destruct request as [data|]; [|inversion H].
  destruct (py_get "otplessToken" JNull data) as [token|] eqn:Ht; [|inversion H].
  destruct (truthy token) eqn:Htr; simpl in H; [|inversion H].
  destruct (post (JObj [("token", token)])) as [response|] eqn:Hp; [|inversion H].
  destruct (status_code response =? 200)%Z eqn:Hs; simpl in H; [|inversion H].
  destruct (body response) as [vd|]; [|inversion H].
  destruct (py_get "user" (JObj []) vd) as [u|]; [|inversion H].
  destruct (py_get "name" (JStr "UpLyft User") u) as [name|]; [|inversion H].
  destruct (py_get "email" (JStr EmptyString) u) as [email|]; [|inversion H].
  destruct (py_get "mobile" (JStr EmptyString) u) as [mobile|]; [|inversion H].
  inversion H; subst.
  exists data, token, response, name, email, mobile.
  apply Z.eqb_eq in Hs. auto 10.
Qed.

Lemma X11_witness :
  let response := {| status_code := 200; text := EmptyString;
                     body := Some (JObj []) |} in
  exists data token response' name email mobile,
    a_request = Some data
    /\ py_get "otplessToken" JNull data = Some token
    /\ truthy token = true
    /\ always response (JObj [("token", token)]) = Some response'
    /\ status_code response' = 200%Z
    /\ fst (otpless_verify (always response) a_request)
       = JObj [ ("token", JStr "dummy-auth-token-for-demo");
                ("user", JObj [("name", name); ("email", email);
                               ("mobile", mobile)]) ].
Proof.
  intros response.
  exact (X11_success_needs_the_service (always response) a_request _ eq_refl).
Defined.

(** X12.  The handler has four answers and no other: 200, 400, 401 and 500;
    and a 500 always carries the same fixed message, so that nothing of the
    failure behind it (a missing body, an unreachable service, an answer of
    an unexpected shape) is shown to the caller. *)
Theorem X12_four_answers post request :
  let '(answer, status) := otpless_verify post request in
  (status = 200 \/ status = 400 \/ status = 401 \/ status = 500)%Z
  /\ (status = 500%Z ->
      answer = JObj [("message", JStr "Internal server error")]).
Proof.
  unfold otpless_verify, verify_body, and_then.
  destruct request as [data|]; [|split; auto].
  destruct (py_get "otplessToken" JNull data) as [token|]; [|split; auto].
  destruct (truthy token); simpl; [|split; [auto|discriminate]].
  destruct (post (JObj [("token", token)])) as [response|]; [|split; auto].
  destruct (status_code response =? 200)%Z; simpl;
    [|split; [auto|discriminate]].
  destruct (body response) as [vd|]; [|split; auto].
  destruct (py_get "user" (JObj []) vd) as [u|]; [|split; auto].
  destruct (py_get "name" (JStr "UpLyft User") u) as [name|]; [|split; auto].
  destruct (py_get "email" (JStr EmptyString) u) as [email|]; [|split; auto].
  destruct (py_get "mobile" (JStr EmptyString) u) as [mobile|]; [|split; auto].
  split; [auto|discriminate].
Qed.

(* ================================================================== *)
(** ** Properties of the configuration, the listing and the chat *)
(* ================================================================== *)

Lemma get_products_lists db t :
  db = Some t ->
  get_products None db = (Products (map product_dict (rows t)), 200%Z).
Proof. intros ->. reflexivity. Qed.

(** X13.  Listing after importing: once a run has gone through, the listing
    answers 200 with the products that were there followed by one product
    for each valid row of the source, in the order of the source, each with
    the trimmed name, the parsed price and no description, category or
    image. *)
Theorem X13_listing_shows_what_was_imported E w :
  outcome E w = Return tt ->
  exists added,
    get_products None (disk (import_products E w))
    = (Products (map product_dict (persisted w) ++ map product_dict added),
       200%Z)
    /\ map fields added = fields_of (items_of E).
Proof.
  intros Ho. destruct (outcome_try_body E w _ Ho) as (w1 & H).
  pose proof (run_disk E w) as D. rewrite Ho in D.
  rewrite (import_products_return E _ _ H) in *.
  destruct (run_return E _ _ H) as (df & out & _ & _ & Dk & _).
  destruct (finally_keeps w1) as (Fd & _).
  exists (records_from (last_id (table_of (disk w))) (items_of E)).
  split; [|apply records_from_fields_of].
  rewrite (get_products_lists _ _ (eq_trans Fd Dk)), <- map_app, <- D.
  unfold persisted. rewrite Fd, Dk. reflexivity.
Qed.

Lemma X13_witness :
  outcome blue_mug (boot None) = Return tt
  /\ exists added,
       get_products None (disk (import_products blue_mug (boot None)))
       = (Products (map product_dict (persisted (boot None))
                    ++ map product_dict added), 200%Z)
       /\ map fields added = fields_of (items_of blue_mug).
Proof.
  assert (H : outcome blue_mug (boot None) = Return tt)
    by (vm_compute; reflexivity).
  split; [exact H|].
  exact (X13_listing_shows_what_was_imported blue_mug (boot None) H).
Defined.

(** X14.  On a database that has no products table the listing answers 500
    with the text of the engine's error, not an empty list; and a run of
    the importer that cannot read its source does not change that, since it
    stops before the table is ensured. *)
Theorem X14_no_table_no_listing E w :
  disk w = None ->
  (forall df, csv E <> Parsed df) ->
  get_products None (disk (import_products E w))
  = (Error "no such table: products", 500%Z).
Proof.
  intros Hd Hcsv.
  assert (D : disk (import_products E w) = disk w).
  { unfold import_products, try_body, read_csv.
    destruct (csv E) as [| | |df]; try reflexivity.
    exfalso. apply (Hcsv df). reflexivity. }
  rewrite D, Hd. reflexivity.
Qed.

Lemma X14_witness :
  disk (boot None) = None
  /\ get_products None (disk (import_products missing_file (boot None)))
     = (Error "no such table: products", 500%Z).
Proof.
  split; [reflexivity|].
  apply (X14_no_table_no_listing missing_file (boot None) eq_refl).
  intros df. discriminate.
Defined.

(** X15.  Every product the importer stores shows in the catalog given to
    the chat model as its name followed by [: None], because the importer
    never fills the description and the catalog prints a missing one as
    None. *)
Theorem X15_imported_products_have_no_description E w r :
  In r (persisted (import_products E w)) ->
  In r (persisted w)
  \/ (optional_text (description r) = Null
      /\ catalog_line (product_name r) (description r)
         = (product_name r ++ ": None")%string).
Proof.
  intros H. pose proof (run_disk E w) as D.
  destruct (outcome E w); rewrite D in H; [|left; assumption].
  apply in_app_or in H. destruct H as [H|H]; [left; assumption|right].
  destruct (records_from_origin _ _ _ H) as (index & row & _ & _ & _ & R).
  rewrite R. split; reflexivity.
Qed.

Lemma X15_witness :
  let r := {| id := 1; product_name := "Blue Mug"; description := None;
              price := Finite (5 # 2); category := None; image_url := None |} in
  In r (persisted (import_products blue_mug (boot None)))
  /\ (In r (persisted (boot None))
      \/ (optional_text (description r) = Null
          /\ catalog_line (product_name r) (description r)
             = (product_name r ++ ": None")%string)).
Proof.
  intros r.
  assert (H : In r (persisted (import_products blue_mug (boot None))))
    by (vm_compute; left; reflexivity).
  split; [exact H|].
  exact (X15_imported_products_have_no_description blue_mug (boot None) r H).
Defined.

(** X16.  A chat request without a message (the key is missing, or its
    value is empty, null, zero or false) is answered 400 before anything
    else happens: the answer does not depend on the database or on the
    model. *)
Theorem X16_chat_needs_a_message render engine generate data message db :
  get_of "message" (JStr EmptyString) data = Done message ->
  truthy message = false ->
  chat render engine generate (Done data) db
  = (JObj [("error", JStr "No message provided")], 400%Z).
Proof.
  intros Hm Hf. unfold chat, chat_body, attempt_bind.
  rewrite Hm, Hf. reflexivity.
Qed.

Lemma X16_witness :
  chat (fun _ => EmptyString) None echo (Done (JObj [])) None
  = (JObj [("error", JStr "No message provided")], 400%Z).
Proof.
  exact (X16_chat_needs_a_message (fun _ => EmptyString) None echo (JObj [])
           (JStr EmptyString) None eq_refl eq_refl).
Defined.

(** X17.  The chat answers 200 only with a reply of the model: a 200 means
    that the request had a message, that the products could be read, and
    that the model, given the prompt built from the catalog of those
    products and the message, came back with the text that is relayed. *)
Theorem X17_chat_success_is_a_reply render engine generate request db answer :
  chat render engine generate request db = (answer, 200%Z) ->
  exists data message products text,
    request = Done data
    /\ get_of "message" (JStr EmptyString) data = Done message
    /\ truthy message = true
    /\ select_products engine db = Done products
    /\ generate (system_prompt (catalog_of products) (formatted render message))
       = Reply text
    /\ answer = JObj [("reply", JStr text)].
Proof.
  unfold chat, chat_body, attempt_bind. intros H.
  destruct request as [data|e]; [|inversion H].
  destruct (get_of "message" (JStr EmptyString) data) as [message|e] eqn:Hm;
    [|inversion H].
  destruct (truthy message) eqn:Ht; simpl in H; [|inversion H].
  destruct (select_products engine db) as [products|e] eqn:Hs; [|inversion H].
  destruct (generate _) as [text| |e] eqn:Hg; inversion H; subst.
  exists data, message, products, text. auto 10.
Qed.

Lemma X17_witness :
  let request := Done (JObj [("message", JStr "do you sell mugs?")]) in
  let db := disk (import_products blue_mug (boot None)) in
  exists data message products text,
    request = Done data
    /\ get_of "message" (JStr EmptyString) data = Done message
    /\ truthy message = true
    /\ select_products None db = Done products
    /\ echo (system_prompt (catalog_of products)
               (formatted (fun _ => EmptyString) message))
       = Reply text
    /\ fst (chat (fun _ => EmptyString) None echo request db)
       = JObj [("reply", JStr text)].
Proof.
  intros request db.
  exact (X17_chat_success_is_a_reply (fun _ => EmptyString) None echo
           request db _ eq_refl).
Defined.

(** X18.  With a message but no products table, the chat answers 500 with
    the text of the engine's error, and the model is not asked: the answer
    is the same whatever the model would have said. *)
Theorem X18_chat_without_table render generate data message :
  get_of "message" (JStr EmptyString) data = Done message ->
  truthy message = true ->
  chat render None generate (Done data) None
  = (JObj [("error", JStr "no such table: products")], 500%Z).
Proof.
  intros Hm Ht. unfold chat, chat_body, attempt_bind.
  rewrite Hm, Ht. reflexivity.
Qed.

Lemma X18_witness :
  chat (fun _ => EmptyString) None echo
    (Done (JObj [("message", JStr "hello")])) None
  = (JObj [("error", JStr "no such table: products")], 500%Z).
Proof.
  exact (X18_chat_without_table (fun _ => EmptyString) echo
           (JObj [("message", JStr "hello")]) (JStr "hello") eq_refl eq_refl).
Defined.

(** X19.  The module loads exactly when both keys are set to a text that is
    not empty, and then keeps those two texts; when both are missing it is
    the Gemini key that the error names. *)
Theorem X19_startup_needs_both_keys getenv :
  (forall g o,
     startup getenv = Done {| gemini_api_key := g; otpless_secret_key := o |}
     <-> (getenv "GEMINI_API_KEY" = Some g /\ g <> EmptyString
          /\ getenv "OTPLESS_SECRET_KEY" = Some o /\ o <> EmptyString))
  /\ (missing (getenv "GEMINI_API_KEY") = true ->
      startup getenv = Failed "GEMINI_API_KEY is missing from .env file.").
Proof.
  unfold startup, missing. split.
  - intros g o.
    destruct (getenv "GEMINI_API_KEY") as [g'|];
      [destruct (g' =? EmptyString)%string eqn:Hg|];
      (destruct (getenv "OTPLESS_SECRET_KEY") as [o'|];
       [destruct (o' =? EmptyString)%string eqn:Ho|]);
      split; intros H; try discriminate;
      try (destruct H as (H1 & H2 & H3 & H4); try discriminate;
           inversion H1; inversion H3; subst;
           try (apply String.eqb_eq in Hg; congruence);
           try (apply String.eqb_eq in Ho; congruence);
           reflexivity).
    inversion H; subst. apply String.eqb_neq in Hg, Ho. auto.
  - intros H. rewrite H. reflexivity.
Qed.

(* ================================================================== *)
(** ** Valid rows and failed runs *)
(* ================================================================== *)

Lemma import_products_finally E w :
  import_products E w = finally (after_except E w).
Proof.
  unfold import_products, after_except.
  destruct (try_body E (set_conn None w)) as [[u|e] w1]; reflexivity.
Qed.

Section Abort.

Variable E : environment.

(** The loop, when it is stopped: it stops at the first row whose insert
    fails, a row that is not invalid; the rows before it have been handled
    as usual and their inserts wait in the connection; the rows after it
    leave no trace, neither a line nor a statement. *)
Lemma loop_raise_trace items :
  forall i s w t e w',
    conn w = Some (Some t) ->
    for_each (loop_body E) (i, s) items w = (Raise e, w') ->
    exists done index row after out,
      items = done ++ (index, row) :: after
      /\ invalid row = false
      /\ ((fault E (calls w + count valid done) = true
           /\ e = OperationalError)
          \/ (fault E (calls w + count valid done) = false
              /\ nan_price row = true /\ e = IntegrityError))
      /\ stdout w' = stdout w ++ out
      /\ map skipped_index out = map Some (invalid_indices done)
      /\ calls w' = S (calls w + count valid done)
      /\ conn w' = Some (Some (grown t done))
      /\ disk w' = disk w.
Proof.
  induction items as [|[index row] rest IH]; intros i s w t e w' Hc Hrun.
  - discriminate.
  - rewrite for_each_cons in Hrun.
    destruct (invalid row) eqn:Hinv.
    + destruct (loop_body_skip E i s index row w Hinv) as (m & Hm & Hb).
      rewrite Hb in Hrun.
      destruct (IH i (S s) (emit m w) t e w' Hc Hrun)
        as (done & k & r & after & out & -> & Hi & Hcause & O & S & Ca & Cn & D).
      exists ((index, row) :: done), k, r, after, (m :: out).
      destruct (row_kinds row) as [[? [? ?]]|[[Hv _]|[? [? ?]]]];
        try congruence.
      rewrite count_cons, Hv, (grown_skip _ _ _ _ Hinv).
      unfold invalid_indices in *. simpl. rewrite Hinv, Hm, S. simpl.
      simpl in O, Ca, Hcause. rewrite <- app_assoc in O.
      repeat split; assumption.
    + pose proof (loop_body_turn E i s index row w t Hc) as T.
      destruct (loop_body E (i, s) (index, row) w) as [r1 w1].
      inversion T as [m Hinv' Hm | x t0 Hd Hp Hf Hc0 | Hn Hf | Hinv' Hf];
        subst; try congruence.
      * rewrite Hc in Hc0. inversion Hc0; subst t0.
        match type of Hrun with for_each _ _ _ ?w2 = _ =>
          destruct (IH (S i) s w2 _ e w' eq_refl Hrun)
            as (done & k & r & after & out & -> & Hi & Hcause & O & S & Ca & Cn & D)
        end.
        exists ((index, row) :: done), k, r, after, out.
        rewrite count_cons, (valid_of_parts _ _ Hd Hp),
          (grown_insert _ index _ _ _ Hd Hp).
        unfold invalid_indices in *. simpl. rewrite Hinv.
        simpl in O, Ca, Hcause, D.
        rewrite Nat.add_succ_r. repeat split; assumption.
      * inversion Hrun; subst.
        exists [], index, row, rest, [].
        unfold count, invalid_indices. simpl.
        rewrite app_nil_r, Nat.add_0_r, grown_nil. auto 10.
      * inversion Hrun; subst.
        exists [], index, row, rest, [].
        unfold count, invalid_indices. simpl.
        rewrite app_nil_r, Nat.add_0_r, grown_nil. auto 10.
Qed.

End Abort.

(** C3.  Every row with a description and a numeric price should end up as
    a record.  On the source [red_pen_nan] the first row is such a row
    (Blue Mug, 2.50) and its turn of the loop does insert it; but the row
    after it has the price text NAN, which is neither skipped nor storable
    (see C1), and the run is rolled back: at the end no record of the Blue
    Mug row is in the table, while the same row as the only row of a source
    is persisted.  In a run that goes through, the record of every such row
    is there (lemma [completed_run_persists_valid_rows]). *)
Theorem C3_valid_row_lost_with_the_run :
  let row := [("Description", PyStr "Blue Mug"); ("UnitPrice", PyStr "2.50")] in
  In (0%nat, row) (items_of red_pen_nan)
  /\ has_description row = true
  /\ parsed_price row = Some (Finite (5 # 2))
  /\ conn (snd (try_body red_pen_nan (set_conn None (boot None))))
     = Some (Some {| rows := [record_for 1 row (Finite (5 # 2))];
                     last_id := 1 |})
  /\ outcome red_pen_nan (boot None) = Raise IntegrityError
  /\ persisted (import_products red_pen_nan (boot None)) = []
  /\ disk (import_products red_pen_nan (boot None)) = Some empty_table
  /\ persisted (import_products
                  (source [ [PyStr "Blue Mug"; PyStr "2.50"] ]) (boot None))
     = [record_for 1 row (Finite (5 # 2))].
Proof. vm_compute. repeat split. left. reflexivity. Qed.

(** C7.  When an unexpected error stops the run during the rows or at the
    commit (the file was read, the connection opened and the table
    ensured), the source splits into the rows done and the rest.  Either
    the rest is empty and it is the commit that failed, or the rest starts
    with the row whose insert failed, by a fault of the engine or by the
    NOT NULL constraint.  The remaining processing is dropped: the output
    holds the skip lines of the rows done and no other, then the error line
    and the roll-back line, with no report; the calls made are those for the
    rows done and the one that failed.  The inserts of the rows done were
    waiting in the connection; after the [except] clause the connection
    sees exactly the table as it was before the run, and so does the disk;
    at the end the records persisted are those of before the run and the
    connection is closed. *)
Theorem C7_error_aborts_and_rolls_back E w df e :
  csv E = Parsed df ->
  fault E (calls w) = false ->
  fault E (S (calls w)) = false ->
  outcome E w = Raise e ->
  exists done rest out,
    iterrows df = done ++ rest
    /\ ((rest = []
         /\ fault E (calls w + 2 + count valid done) = true
         /\ e = OperationalError)
        \/ (exists index row after,
              rest = (index, row) :: after
              /\ invalid row = false
              /\ ((fault E (calls w + 2 + count valid done) = true
                   /\ e = OperationalError)
                  \/ (fault E (calls w + 2 + count valid done) = false
                      /\ nan_price row = true /\ e = IntegrityError))))
    /\ stdout (import_products E w)
       = stdout w
         ++ [ReadRows (len df); ColumnsDetected (columns df); TableEnsured]
         ++ out ++ [Unexpected e; RolledBack]
    /\ map skipped_index out = map Some (invalid_indices done)
    /\ calls (import_products E w) = (calls w + 3 + count valid done)%nat
    /\ conn (snd (try_body E (set_conn None w)))
       = Some (Some (grown (table_of (disk w)) done))
    /\ conn (after_except E w) = Some (Some (table_of (disk w)))
    /\ disk (after_except E w) = Some (table_of (disk w))
    /\ persisted (import_products E w) = persisted w
    /\ conn (import_products E w) = None.
Proof.
  intros Hcsv Hf1 Hf2 Ho.
  pose proof (run_disk E w) as P. rewrite Ho in P. rewrite P.
  rewrite import_products_finally.
  destruct (finally_keeps (after_except E w)) as (_ & -> & -> & ->).
  unfold outcome in Ho. unfold after_except.
  rewrite (try_body_stages E df w Hcsv), Hf1, Hf2 in *.
  destruct (for_each _ _ _ _) as [[counts|e'] wa] eqn:Hloop.
  - (* the loop ran to its end: the commit failed *)
    pose proof Hloop as Htrace.
    apply loop_trace with (t := table_of (disk w)) in Htrace; [|reflexivity].
    apply loop_spec with (t := table_of (disk w)) in Hloop; [|reflexivity].
    destruct Hloop as (D & _ & _ & _ & _ & _ & _ & Cn & _).
    destruct Htrace as (Ca & out & O & S).
    assert (Hk : (calls w + 2 + count valid (iterrows df))%nat = calls wa)
      by (rewrite Ca; simpl; lia).
    rewrite (closing_spec E _ _ _ Cn) in *.
    destruct (fault E (calls wa)) eqn:Hf; simpl in Ho; [|discriminate].
    inversion Ho; subst e.
    exists (iterrows df), [], out.
    assert (Hh : handler OperationalError (tick wa)
                 = emit RolledBack
                     (rollback (emit (Unexpected OperationalError) (tick wa))))
      by (unfold handler; simpl; rewrite Cn; reflexivity).
    rewrite Hh, Hk. simpl.
    rewrite app_nil_r, Cn, O, D. simpl. rewrite <- !app_assoc. simpl.
    repeat split; auto. rewrite <- Hk. lia.
  - (* the loop was stopped at a row *)
    simpl in Ho. inversion Ho; subst e'.
    apply loop_raise_trace with (t := table_of (disk w)) in Hloop;
      [|reflexivity].
    destruct Hloop
      as (done & index & row & after & out & It & Hi & Hcause & O & S & Ca & Cn & D).
    simpl in Hcause, Ca.
    replace (Datatypes.S (Datatypes.S (calls w + count valid done)))
      with (calls w + 2 + count valid done)%nat in Hcause by lia.
    exists done, ((index, row) :: after), out.
    assert (Hh : handler e wa
                 = emit RolledBack (rollback (emit (Unexpected e) wa))).
    { unfold handler. simpl. rewrite Cn.
      destruct Hcause as [[_ ->]|[_ [_ ->]]]; reflexivity. }
    rewrite Hh. simpl. rewrite Cn, O, D. simpl. rewrite <- !app_assoc. simpl.
    repeat split; auto.
    + right. exists index, row, after.
      split; [reflexivity|]. split; [assumption|exact Hcause].
    + rewrite Ca. lia.
Qed.

Lemma C7_witness :
  let w := import_products blue_mug (boot None) in
  let row := [("Description", PyStr "Red Pen"); ("UnitPrice", PyStr "NAN")] in
  outcome cut_short w = Raise IntegrityError
  /\ nan_price row = true
  /\ persisted w
     = [ {| id := 1; product_name := "Blue Mug"; description := None;
            price := Finite (5 # 2); category := None; image_url := None |} ]
  /\ exists done rest out,
       items_of cut_short = done ++ rest
       /\ ((rest = []
            /\ fault cut_short (calls w + 2 + count valid done) = true
            /\ IntegrityError = OperationalError)
           \/ (exists index row after,
                 rest = (index, row) :: after
                 /\ invalid row = false
                 /\ ((fault cut_short (calls w + 2 + count valid done) = true
                      /\ IntegrityError = OperationalError)
                     \/ (fault cut_short (calls w + 2 + count valid done) = false
                         /\ nan_price row = true
                         /\ IntegrityError = IntegrityError))))
       /\ stdout (import_products cut_short w)
          = stdout w
            ++ [ReadRows 4; ColumnsDetected ["Description"; "UnitPrice"];
                TableEnsured]
            ++ out ++ [Unexpected IntegrityError; RolledBack]
       /\ map skipped_index out = map Some (invalid_indices done)
       /\ calls (import_products cut_short w) = (calls w + 3 + count valid done)%nat
       /\ conn (snd (try_body cut_short (set_conn None w)))
          = Some (Some (grown (table_of (disk w)) done))
       /\ conn (after_except cut_short w) = Some (Some (table_of (disk w)))
       /\ disk (after_except cut_short w) = Some (table_of (disk w))
       /\ persisted (import_products cut_short w) = persisted w
       /\ conn (import_products cut_short w) = None.
Proof.
  intros w row.
  assert (H : outcome cut_short w = Raise IntegrityError)
    by (vm_compute; reflexivity).
  split; [exact H|]. split; [reflexivity|]. split; [reflexivity|].
  exact (C7_error_aborts_and_rolls_back cut_short w _ IntegrityError
           eq_refl eq_refl eq_refl H).
Defined.
